(** * Fraud Finder front end: the MainScreen component and its analysis form

    A shallow embedding of [MainScreen] (the landing screen that hosts the
    analysis form), of its submit handler [handleAnalyze] and of the part of
    the rendered tree the properties below talk about: which screen is shown,
    which controls are disabled, which result panel is chosen, the risk bar
    and the grid of red-flag tiles.

    JavaScript data is kept as the program has it: strings are sequences of
    UTF-16 code units, numbers are binary64 floats ([spec_float]), parsed
    JSON bodies are values of [jsval], React state is a record that the
    setters update, and the asynchronous handler is split at its [await]
    into the part that runs on submit and the part that runs when the
    request settles. *)

From Stdlib Require Import List NArith ZArith Bool String Ascii Lia.
From Stdlib Require Import Floats.SpecFloat.
From Equations Require Import Equations.
Import ListNotations.

Set Implicit Arguments.
Set Warnings "-register-all".

Local Open Scope N_scope.

(** ** Strings *)

Module JsString.

(** A string is a list of UTF-16 code units. *)
Definition code_unit := N.
Definition jstr := list code_unit.

(** Source literals are ASCII; [lit] gives their code units. *)
Definition lit (s : string) : jstr := map N_of_ascii (list_ascii_of_string s).

Fixpoint eqb (a b : jstr) : bool :=
  match a, b with
  | [], [] => true
  | x :: a', y :: b' => (x =? y) && eqb a' b'
  | _, _ => false
  end.

(** ToBoolean on a string: the empty string is the only falsy one. *)
Definition truthy (s : jstr) : bool :=
  match s with [] => false | _ :: _ => true end.

(** The code units [String.prototype.trim] strips: WhiteSpace (TAB, VT, FF,
    SP, NBSP, ZWNBSP and the Unicode space separators) and LineTerminator
    (LF, CR, LS, PS).  All of them are single code units. *)
Definition is_white_space (c : code_unit) : bool :=
  (c =? 9) || (c =? 10) || (c =? 11) || (c =? 12) || (c =? 13) || (c =? 32)
  || (c =? 160) || (c =? 5760) || ((8192 <=? c) && (c <=? 8202))
  || (c =? 8232) || (c =? 8233) || (c =? 8239) || (c =? 8287)
  || (c =? 12288) || (c =? 65279).

Fixpoint trimStart (s : jstr) : jstr :=
  match s with
  | [] => []
  | c :: rest => if is_white_space c then trimStart rest else s
  end.

Definition trimEnd (s : jstr) : jstr := rev (trimStart (rev s)).

Definition trim (s : jstr) : jstr := trimEnd (trimStart s).

Definition all_white_space (s : jstr) : bool := forallb is_white_space s.

End JsString.

Import JsString.

(** ** The pattern [/^https?:\/\//i]

    The pattern carries the [i] flag and no [u] flag.  A pattern character
    and an input code unit match when their canonical forms agree; the
    canonical form of a code unit is its upper-case mapping, except that a
    code unit of 128 and above is never mapped below 128.  For the letters
    [h], [t], [p], [s] this leaves the two ASCII cases and nothing else, and
    [:] and [/] only match themselves. *)

Module UrlPattern.

Definition is_ascii_lower (c : code_unit) : bool := (97 <=? c) && (c <=? 122).

(** Canonical form of a code unit.  Below 128 it is the ASCII upper case.
    From 128 on the real mapping consults the Unicode tables, but its value
    stays at 128 or above, which is all that matters against an ASCII
    pattern; the code unit itself stands for it here. *)
Definition Canonicalize (c : code_unit) : code_unit :=
  if is_ascii_lower c then c - 32 else c.

(** Does input code unit [c] match pattern character [p] under [i]? *)
Definition char_matches (p c : code_unit) : bool :=
  Canonicalize p =? Canonicalize c.

(** Match the literal sequence [pat] at the head of [s]; the rest of the
    input on success. *)
Fixpoint match_seq (pat s : jstr) : option jstr :=
  match pat, s with
  | [], _ => Some s
  | _ :: _, [] => None
  | p :: pat', c :: s' => if char_matches p c then match_seq pat' s' else None
  end.

Definition matches_seq (pat s : jstr) : bool :=
  match match_seq pat s with Some _ => true | None => false end.

(** [s?] is greedy: first try to consume one [s], and fall back to
    consuming nothing when what follows fails. *)
Definition test (s : jstr) : bool :=
  match match_seq (lit "http") s with
  | None => false
  | Some rest =>
      let with_s :=
        match match_seq (lit "s") rest with
        | Some rest' => matches_seq (lit "://") rest'
        | None => false
        end in
      with_s || matches_seq (lit "://") rest
  end.

End UrlPattern.

(** ** Values *)

(** Numbers are binary64 floats. *)
Definition jsnum := spec_float.

Definition num_of_Z (z : Z) : jsnum := binary_normalize 53 1024 z 0 false.

(** What [JSON.parse] can return, plus [undefined] for absent properties.
    An object lists its own properties; a parsed object has each key once,
    and a lookup takes the first entry with the key. *)
Inductive jsval : Type :=
| VUndefined
| VNull
| VBool (b : bool)
| VNum (x : jsnum)
| VStr (s : jstr)
| VArr (elems : list jsval)
| VObj (props : list (jstr * jsval)).

(** ToBoolean. *)
Definition truthy (v : jsval) : bool :=
  match v with
  | VUndefined | VNull => false
  | VBool b => b
  | VNum (S754_zero _) | VNum S754_nan => false
  | VNum _ => true
  | VStr s => JsString.truthy s
  | VArr _ | VObj _ => true
  end.

Fixpoint lookup (k : jstr) (props : list (jstr * jsval)) : jsval :=
  match props with
  | [] => VUndefined
  | (k', v) :: rest => if JsString.eqb k k' then v else lookup k rest
  end.

(** [v.k] for a [v] that is neither [null] nor [undefined], and a key [k]
    that is not an array index, [length] or a prototype property (the source
    only reads the response's field names): an object gives its own
    property, anything else gives [undefined]. *)
Definition get_prop (v : jsval) (k : jstr) : jsval :=
  match v with
  | VObj props => lookup k props
  | _ => VUndefined
  end.

(** [a || b] and [a && b] on values. *)
Definition js_or (a b : jsval) : jsval := if truthy a then a else b.
Definition js_and (a b : jsval) : jsval := if truthy a then b else a.

(** [typeof v === 'object'] *)
Definition typeof_object (v : jsval) : bool :=
  match v with
  | VNull | VArr _ | VObj _ => true
  | _ => false
  end.

Definition isArray (v : jsval) : bool :=
  match v with VArr _ => true | _ => false end.

(** ** Exceptions *)

(** A computation either returns or throws an error; only the error's
    [message] is ever read. *)
Inductive exn (A : Type) : Type :=
| Return (a : A)
| Throw (message : jstr).
Arguments Return {A} a.
Arguments Throw {A} message.

Definition bind {A B} (m : exn A) (f : A -> exn B) : exn B :=
  match m with
  | Return a => f a
  | Throw msg => Throw msg
  end.

Notation "x <- m ;; k" := (bind m (fun x => k))
  (at level 61, m at next level, right associativity).

(** The message of the TypeError raised by reading a property of [null] or
    [undefined].  The text is the engine's (this is V8's); the program only
    displays it. *)
Definition type_error_message (v : jsval) (k : jstr) : jstr :=
  lit "Cannot read properties of "
  ++ (match v with VUndefined => lit "undefined" | _ => lit "null" end)
  ++ lit " (reading '" ++ k ++ lit "')".

(** [v.k], throwing on [null] and [undefined]. *)
Definition member (v : jsval) (k : jstr) : exn jsval :=
  match v with
  | VUndefined | VNull => Throw (type_error_message v k)
  | _ => Return (get_prop v k)
  end.

(** ** Component state *)

(** The eight [useState] cells of [MainScreen]. *)
Record state : Type := mkState {
  showSignUp : bool;
  showLogin : bool;
  userName : jstr;
  showProfile : bool;
  input : jstr;
  analysisType : jstr;
  result : jsval;
  loading : bool
}.

Definition initial : state :=
  {| showSignUp := false; showLogin := false; userName := lit "";
     showProfile := false; input := lit ""; analysisType := lit "quick";
     result := VNull; loading := false |}.

Definition setShowSignUp (b : bool) (s : state) : state :=
  mkState b (showLogin s) (userName s) (showProfile s) (input s)
          (analysisType s) (result s) (loading s).
Definition setShowLogin (b : bool) (s : state) : state :=
  mkState (showSignUp s) b (userName s) (showProfile s) (input s)
          (analysisType s) (result s) (loading s).
Definition setUserName (n : jstr) (s : state) : state :=
  mkState (showSignUp s) (showLogin s) n (showProfile s) (input s)
          (analysisType s) (result s) (loading s).
Definition setShowProfile (b : bool) (s : state) : state :=
  mkState (showSignUp s) (showLogin s) (userName s) b (input s)
          (analysisType s) (result s) (loading s).
Definition setInput (v : jstr) (s : state) : state :=
  mkState (showSignUp s) (showLogin s) (userName s) (showProfile s) v
          (analysisType s) (result s) (loading s).
Definition setAnalysisType (t : jstr) (s : state) : state :=
  mkState (showSignUp s) (showLogin s) (userName s) (showProfile s) (input s)
          t (result s) (loading s).
Definition setResult (r : jsval) (s : state) : state :=
  mkState (showSignUp s) (showLogin s) (userName s) (showProfile s) (input s)
          (analysisType s) r (loading s).
Definition setLoading (b : bool) (s : state) : state :=
  mkState (showSignUp s) (showLogin s) (userName s) (showProfile s) (input s)
          (analysisType s) (result s) b.

Definition handleAuthSuccess (name : jstr) (s : state) : state :=
  setShowLogin false (setShowSignUp false (setUserName name s)).

(** ** The analysis request and [handleAnalyze] *)

Record payload : Type := mkPayload {
  job_text : jstr;
  job_url : jstr;
  company_name : jstr;
  analysis_type : jstr;
  job_title : jstr
}.

Definition validation_message : jstr :=
  lit "Please enter a job posting URL or description.".

Definition fallback_message : jstr :=
  lit "Failed to analyze. Please try again.".

(** The object literal [{ error: e }]. *)
Definition error_object (e : jsval) : jsval := VObj [(lit "error", e)].

Definition make_payload (input analysisType : jstr) : payload :=
  let isUrl := UrlPattern.test (trim input) in
  {| job_text := if isUrl then lit "" else trim input;
     job_url := if isUrl then trim input else lit "";
     company_name := lit "";
     analysis_type := analysisType;
     job_title := lit "" |}.

(** The handler up to its first [await]: clear the result, validate, build
    the payload, raise the loading flag and call [fetch].  The second
    component is the request handed to [fetch], if any. *)
Definition handleAnalyze (s : state) : state * option payload :=
  let s1 := setResult VNull s in
  if negb (JsString.truthy (trim (input s))) then
    (setResult (error_object (VStr validation_message)) s1, None)
  else
    let p := make_payload (input s) (analysisType s) in
    (setLoading true s1, Some p).

(** What comes back: [fetch] rejects, or resolves with a response whose
    [json()] in turn rejects or resolves with the parsed body. *)
Record response : Type := mkResponse {
  status : N;
  json : exn jsval
}.

Definition fetch_outcome := exn response.

(** [response.ok] *)
Definition ok (r : response) : bool := (200 <=? status r) && (status r <=? 299).

(** The [try] block after [fetch] was called; it returns the value that is
    passed to [setResult]. *)
Definition try_block (o : fetch_outcome) : exn jsval :=
  resp <- o ;;
  data <- json resp ;;
  failed <- (if negb (ok resp) then Return true
             else e <- member data (lit "error") ;; Return (truthy e)) ;;
  if (failed : bool) then
    e <- member data (lit "error") ;;
    Return (error_object (js_or e (VStr fallback_message)))
  else Return data.

(** The rest of the handler, run when the request settles: [try], [catch]
    and [finally]. *)
Definition handleAnalyze_settle (o : fetch_outcome) (s : state) : state :=
  let s1 :=
    match try_block o with
    | Return r => setResult r s
    | Throw message => setResult (error_object (VStr message)) s
    end in
  setLoading false s1.

(** ** [Math.min], [Math.max] and the risk bar *)

Definition is_nan (x : jsnum) : bool :=
  match x with S754_nan => true | _ => false end.

Definition pos_zero : jsnum := S754_zero false.
Definition neg_zero : jsnum := S754_zero true.

(** One round of the loop of [Math.min]: [-0] counts as below [+0]. *)
Definition min_step (lowest number : jsnum) : jsnum :=
  match number, lowest with
  | S754_zero true, S754_zero false => number
  | _, _ => if SFltb number lowest then number else lowest
  end.

Definition max_step (highest number : jsnum) : jsnum :=
  match number, highest with
  | S754_zero false, S754_zero true => number
  | _, _ => if SFltb highest number then number else highest
  end.

Definition Math_min (args : list jsnum) : jsnum :=
  if existsb is_nan args then S754_nan
  else fold_left min_step args (S754_infinity false).

Definition Math_max (args : list jsnum) : jsnum :=
  if existsb is_nan args then S754_nan
  else fold_left max_step args (S754_infinity true).

(** ToNumber, for the values whose conversion needs no parsing; [None] for
    strings, arrays and objects, whose conversion is not modelled. *)
Definition ToNumber (v : jsval) : option jsnum :=
  match v with
  | VUndefined => Some S754_nan
  | VNull => Some pos_zero
  | VBool b => Some (if b then num_of_Z 1 else pos_zero)
  | VNum x => Some x
  | VStr _ | VArr _ | VObj _ => None
  end.

(** [Math.max(0, Math.min(100, x))] *)
Definition clamp_percent (x : jsnum) : jsnum :=
  Math_max [num_of_Z 0; Math_min [num_of_Z 100; x]].

(** The number in front of [%] in the fill's [width] and in the marker's
    [left]. *)
Definition bar_percent (risk_score : jsval) : option jsnum :=
  option_map clamp_percent (ToNumber risk_score).

(** ** The red-flag grid *)

Definition no_flag : jsval := VStr (lit "No flag").

(** [while (flags.length < 8) flags.push('No flag')] *)
Equations? pad_flags (flags : list jsval) : list jsval
  by wf (8 - List.length flags)%nat lt :=
  pad_flags flags with lt_dec (List.length flags) 8 => {
    | left _ := pad_flags (flags ++ [no_flag]);
    | right _ := flags }.
Proof.
  clear pad_flags. rewrite length_app.
  destruct (List.length flags) as [|[|[|[|[|[|[|[|n]]]]]]]]; simpl; lia.
Qed.

(** [red_flags.slice(0, 8)] *)
Definition slice_0_8 (l : list jsval) : list jsval := firstn 8 l.

(** The tiles built from [result.analysis]. *)
Definition flag_tiles_of (analysis : jsval) : list jsval :=
  let red_flags := get_prop analysis (lit "red_flags") in
  let flags :=
    match red_flags with
    | VArr l => slice_0_8 l
    | _ => []
    end in
  pad_flags flags.

(** ** What [MainScreen] renders *)

(** The success panel, as far as it depends on the response. *)
Record result_view : Type := mkResultView {
  score_color : jsval;
  score_text : jsval;
  level_text : jsval;
  fill_width : option jsnum;
  marker_left : option jsnum;
  verdict_text : jsval;
  is_scam_text : jstr;
  flag_tiles : option (list jsval);
  llm_text : option jsval;
  auto_reply_shown : bool
}.

Definition render_result (result : jsval) : result_view :=
  let analysis := get_prop result (lit "analysis") in
  {| score_color := js_or (get_prop result (lit "risk_color")) (VStr (lit "#333"));
     score_text := get_prop result (lit "risk_score");
     level_text := get_prop result (lit "risk_level");
     fill_width := bar_percent (get_prop result (lit "risk_score"));
     marker_left := bar_percent (get_prop result (lit "risk_score"));
     verdict_text := get_prop result (lit "verdict");
     is_scam_text :=
       if truthy (get_prop result (lit "is_scam")) then lit "Yes" else lit "No";
     flag_tiles :=
       if truthy analysis then Some (flag_tiles_of analysis) else None;
     llm_text :=
       if truthy analysis then Some (get_prop analysis (lit "llm_analysis"))
       else None;
     auto_reply_shown := truthy (get_prop result (lit "auto_reply")) |}.

(** The block under the form: the error panel, the success panel, the raw
    panel for a truthy result that is not an object, or the falsy result
    itself, handed to React as it is. *)
Inductive panel : Type :=
| ErrorPanel (message : jsval)
| ResultPanel (r : result_view)
| RawPanel (v : jsval)
| NoPanel (v : jsval).

Definition render_panel (result : jsval) : panel :=
  if truthy (js_and result (get_prop result (lit "error"))) then
    ErrorPanel (get_prop result (lit "error"))
  else if truthy result && typeof_object result then
    ResultPanel (render_result result)
  else if truthy result then RawPanel result
  else NoPanel result.

Definition login_notice_text : jstr :=
  lit "Please log in to analyze job postings.".

Record main_view : Type := mkMainView {
  welcome : option jstr;
  textarea_value : jstr;
  textarea_disabled : bool;
  quick_checked : bool;
  quick_disabled : bool;
  detailed_checked : bool;
  detailed_disabled : bool;
  submit_label : jstr;
  submit_disabled : bool;
  login_notice : option jstr;
  result_panel : panel
}.

Definition render_main (s : state) : main_view :=
  let logged_in := JsString.truthy (userName s) in
  {| welcome := if logged_in then Some (userName s) else None;
     textarea_value := input s;
     textarea_disabled := negb logged_in;
     quick_checked := JsString.eqb (analysisType s) (lit "quick");
     quick_disabled := negb logged_in;
     detailed_checked := JsString.eqb (analysisType s) (lit "detailed");
     detailed_disabled := negb logged_in;
     submit_label :=
       if loading s then lit "Analyzing..." else lit "Analyze Job Posting";
     submit_disabled := loading s || negb logged_in;
     login_notice := if negb logged_in then Some login_notice_text else None;
     result_panel := render_panel (result s) |}.

Inductive view : Type :=
| SignUpPage
| LoginScreen
| ProfilePage (name : jstr)
| Main (m : main_view).

Definition MainScreen (s : state) : view :=
  if showSignUp s then SignUpPage
  else if showLogin s then LoginScreen
  else if showProfile s then ProfilePage (userName s)
  else Main (render_main s).

(** ** The mounted component as a transition system

    An event is something that can reach one of the component's callbacks:
    a click or a change on a control it renders, a call by a child screen of
    the callback it was given, or the settling of a request that is in
    flight.  An event whose control is not rendered, or is rendered
    disabled, is not delivered and changes nothing. *)

Inductive event : Type :=
| ClickSignUp
| ClickLogIn
| ClickWelcome
| SignUpBack
| LoginBack
| ProfileBack
| AuthSuccess (name : jstr)
| TextareaChange (value : jstr)
| QuickChange
| DetailedChange
| FormSubmit
| Settle (k : nat) (o : fetch_outcome).

(** The component state, the requests handed to [fetch] that have not
    settled yet, and the log of every request handed to [fetch] so far. *)
Record config : Type := mkConfig {
  ui : state;
  in_flight : list payload;
  sent : list payload
}.

Definition boot : config :=
  {| ui := initial; in_flight := []; sent := [] |}.

Definition with_ui (c : config) (s : state) : config :=
  {| ui := s; in_flight := in_flight c; sent := sent c |}.

Definition issued (req : option payload) : list payload :=
  match req with Some p => [p] | None => [] end.

Fixpoint remove_nth (k : nat) (l : list payload) : list payload :=
  match k, l with
  | _, [] => []
  | O, _ :: rest => rest
  | S k', p :: rest => p :: remove_nth k' rest
  end.

Definition submit (c : config) : config :=
  let '(s, req) := handleAnalyze (ui c) in
  {| ui := s;
     in_flight := in_flight c ++ issued req;
     sent := sent c ++ issued req |}.

Definition settle (k : nat) (o : fetch_outcome) (c : config) : config :=
  match nth_error (in_flight c) k with
  | None => c
  | Some _ =>
      {| ui := handleAnalyze_settle o (ui c);
         in_flight := remove_nth k (in_flight c);
         sent := sent c |}
  end.

Definition step (c : config) (e : event) : config :=
  let s := ui c in
  match e, MainScreen s with
  | Settle k o, _ => settle k o c
  | SignUpBack, SignUpPage => with_ui c (setShowSignUp false s)
  | AuthSuccess name, SignUpPage => with_ui c (handleAuthSuccess name s)
  | LoginBack, LoginScreen => with_ui c (setShowLogin false s)
  | AuthSuccess name, LoginScreen => with_ui c (handleAuthSuccess name s)
  | ProfileBack, ProfilePage _ => with_ui c (setShowProfile false s)
  | ClickSignUp, Main m =>
      match welcome m with
      | None => with_ui c (setShowSignUp true s)
      | Some _ => c
      end
  | ClickLogIn, Main m =>
      match welcome m with
      | None => with_ui c (setShowLogin true s)
      | Some _ => c
      end
  | ClickWelcome, Main m =>
      match welcome m with
      | Some _ => with_ui c (setShowProfile true s)
      | None => c
      end
  | TextareaChange value, Main m =>
      if textarea_disabled m then c else with_ui c (setInput value s)
  | QuickChange, Main m =>
      if quick_disabled m then c
      else if JsString.truthy (userName s)
           then with_ui c (setAnalysisType (lit "quick") s) else c
  | DetailedChange, Main m =>
      if detailed_disabled m then c
      else if JsString.truthy (userName s)
           then with_ui c (setAnalysisType (lit "detailed") s) else c
  | FormSubmit, Main m =>
      if submit_disabled m then c else submit c
  | _, _ => c
  end.

Definition run (c : config) (evs : list event) : config :=
  fold_left step evs c.

Definition is_selector_event (e : event) : bool :=
  match e with QuickChange | DetailedChange => true | _ => false end.

Definition is_auth_event (e : event) : bool :=
  match e with AuthSuccess _ => true | _ => false end.

(** ** Vocabulary of the properties *)

(** [pre] matches the literal [pat] code unit by code unit. *)
Definition matches_all (pat pre : jstr) : Prop :=
  Forall2 (fun p c => UrlPattern.char_matches p c = true) pat pre.

(** How the request [p] splits the field value of state [s] between
    [job_url] and [job_text]: the trimmed value goes to [job_url] when the
    pattern accepts it and to [job_text] otherwise, the other field is
    empty. *)
Definition routed_by_trimmed_input (s : state) (p : payload) : Prop :=
  (UrlPattern.test (trim (input s)) = true ->
     job_url p = trim (input s) /\ job_url p <> [] /\ job_text p = [])
  /\ (UrlPattern.test (trim (input s)) = false ->
     job_text p = trim (input s) /\ job_text p <> [] /\ job_url p = []).

(** One of [job_text], [job_url] is the empty string and the other is not. *)
Definition exactly_one_nonempty (p : payload) : Prop :=
  xorb (JsString.truthy (job_text p)) (JsString.truthy (job_url p)) = true.

(** A field value with a blank in front of a URL. *)
Definition blank_then_url : jstr := lit " http://a".

(** The response arrived with a status outside 200..299. *)
Definition status_non_2xx (o : fetch_outcome) : bool :=
  match o with
  | Return resp => negb (ok resp)
  | Throw _ => false
  end.

(** The [error] field of the parsed body, [undefined] when there is no
    parsed body or no such field. *)
Definition body_error (o : fetch_outcome) : jsval :=
  match o with
  | Return resp =>
      match json resp with
      | Return data => get_prop data (lit "error")
      | Throw _ => VUndefined
      end
  | Throw _ => VUndefined
  end.

(** The call rejects: [fetch] does, or [json()] does. *)
Definition rejects (o : fetch_outcome) : bool :=
  match o with
  | Throw _ => true
  | Return resp =>
      match json resp with
      | Throw _ => true
      | Return _ => false
      end
  end.

(** The parsed body is [null], so that reading its [error] throws
    ([undefined], which [JSON.parse] never yields, would do the same). *)
Definition body_is_null (o : fetch_outcome) : bool :=
  match o with
  | Throw _ => false
  | Return resp =>
      match json resp with
      | Return VNull | Return VUndefined => true
      | _ => false
      end
  end.

(** The three failure cases the specification names: the status is not
    2xx, the body has a truthy [error], or the call rejects. *)
Definition named_failure (o : fetch_outcome) : bool :=
  status_non_2xx o || truthy (body_error o) || rejects o.

(** A failure as the handler treats it: one of the three named cases, or a
    body that is [null]. *)
Definition is_failure (o : fetch_outcome) : bool :=
  named_failure o || body_is_null o.

(** A [fetch] that rejects with an error whose message is empty. *)
Definition empty_rejection : fetch_outcome := Throw (lit "").

(** A 200 response whose body is the JSON text [null]. *)
Definition null_body_200 : fetch_outcome :=
  Return {| status := 200; json := Return VNull |}.

(** The errors raised by [fetch] and by [json()] carry a message. *)
Definition rejections_have_message (o : fetch_outcome) : Prop :=
  match o with
  | Throw message => message <> []
  | Return resp =>
      match json resp with
      | Throw message => message <> []
      | Return _ => True
      end
  end.

(** The entries of [red_flags]; none when it is not an array. *)
Definition red_flag_entries (analysis : jsval) : list jsval :=
  match get_prop analysis (lit "red_flags") with
  | VArr l => l
  | _ => []
  end.

(** Which of the four screens a rendered tree is. *)
Inductive screen : Type := SignUp | Login | Profile | Landing.

Definition screen_of (v : view) : screen :=
  match v with
  | SignUpPage => SignUp
  | LoginScreen => Login
  | ProfilePage _ => Profile
  | Main _ => Landing
  end.

(** The filter that lets every event through. *)
Definition any_event (e : event) : bool := true.

(** At most one request is in flight, and the loading flag tells whether
    one is. *)
Definition one_request_guard (c : config) : Prop :=
  (in_flight c = [] /\ loading (ui c) = false)
  \/ (exists p, in_flight c = [p] /\ loading (ui c) = true).

(** A configuration the component can be in: the result of delivering some
    sequence of events to the freshly mounted component. *)
Definition reachable (c : config) : Prop := exists evs, c = run boot evs.

(** The selector holds a value in the set [T], and so did every request
    sent. *)
Definition types_within (T : jstr -> Prop) (c : config) : Prop :=
  T (analysisType (ui c)) /\ Forall (fun p => T (analysis_type p)) (sent c).

(** No user name, nothing sent, nothing in flight. *)
Definition logged_out_idle (c : config) : Prop :=
  userName (ui c) = lit "" /\ in_flight c = [] /\ sent c = [].

(** The screen flags agree with the login state: at most one flag is set,
    an auth screen is open only without a user name, the profile screen
    only with one. *)
Definition screens_consistent (s : state) : Prop :=
  match showSignUp s, showLogin s, showProfile s with
  | false, false, false => True
  | true, false, false => userName s = lit ""
  | false, true, false => userName s = lit ""
  | false, false, true => JsString.truthy (userName s) = true
  | _, _, _ => False
  end.

(** How many of the three screen flags are set. *)
Definition flags_set (s : state) : nat :=
  ((if showSignUp s then 1 else 0) + (if showLogin s then 1 else 0)
   + (if showProfile s then 1 else 0))%nat.

(** While nobody is logged in, nothing is in flight and nothing was sent. *)
Definition idle_while_logged_out (c : config) : Prop :=
  userName (ui c) = lit "" -> in_flight c = [] /\ sent c = [].

(** The invariant of the mounted component that the navigation properties
    rest on. *)
Definition navigation_invariant (c : config) : Prop :=
  screens_consistent (ui c) /\ one_request_guard c /\ idle_while_logged_out c.

(** A string that trimming leaves alone and that, when not empty, neither
    starts nor ends with white space. *)
Definition trimmed (t : jstr) : Prop :=
  trim t = t
  /\ (forall c r, t = c :: r -> is_white_space c = false)
  /\ (forall c r, t = r ++ [c] -> is_white_space c = false).

(** A request as the handler builds them. *)
Definition well_formed_request (p : payload) : Prop :=
  company_name p = lit "" /\ job_title p = lit ""
  /\ exactly_one_nonempty p
  /\ trimmed (job_text p) /\ trimmed (job_url p)
  /\ (job_url p <> [] -> UrlPattern.test (job_url p) = true)
  /\ (job_text p <> [] -> UrlPattern.test (job_text p) = false).

Definition is_typing_event (e : event) : bool :=
  match e with TextareaChange _ => true | _ => false end.

(** A JSON value that is not an object, an array or [null]. *)
Definition is_primitive (v : jsval) : bool :=
  match v with
  | VBool _ | VNum _ | VStr _ => true
  | _ => false
  end.

(** ** The sign-up and login screens

    Each keeps one object of string fields in [form]; [handleChange] copies
    it with one field replaced, [handleSubmit] shows it in an alert.
    Neither screen reads any prop but [onBack]. *)

Definition props := list (jstr * jsval).

(** The object literal [{ ...prev, [name]: value }], for a [name] that is
    not an array index: the properties of [prev] in their order, [name]
    overwritten in place when [prev] has it and added last when not. *)
Fixpoint spread_set (prev : props) (name : jstr) (value : jsval) : props :=
  match prev with
  | [] => [(name, value)]
  | (k, v) :: rest =>
      if JsString.eqb name k then (k, value) :: rest
      else (k, v) :: spread_set rest name value
  end.

Definition keys (o : props) : list jstr := map fst o.

(** What [alert] is called with: the heading, followed by
    [JSON.stringify(form, null, 2)]; the object stands for its rendering. *)
Inductive alert : Type :=
| Alert (heading : jstr) (form : props).

Module login_screen.

Definition initial_form : props :=
  [(lit "email", VStr (lit "")); (lit "password", VStr (lit ""))].

(** The [name] attributes of the inputs wired to [handleChange]. *)
Definition input_names : list jstr := [lit "email"; lit "password"].

Definition handleChange (name value : jstr) (form : props) : props :=
  spread_set form name (VStr value).

Definition handleSubmit (form : props) : alert :=
  Alert (lit "Login submitted!" ++ [10]) form.

End login_screen.

Module sign_up_page.

Definition professions : list jstr :=
  [lit "Student"; lit "Recent Graduate"; lit "Working Professional";
   lit "Job Seeking Professional"].

Definition interests : list jstr :=
  [lit "Technology"; lit "Finance"; lit "Healthcare"; lit "Education";
   lit "Other"].

Definition initial_form : props :=
  [(lit "name", VStr (lit "")); (lit "email", VStr (lit ""));
   (lit "password", VStr (lit "")); (lit "profession", VStr (lit ""));
   (lit "interest", VStr (lit ""))].

Definition input_names : list jstr :=
  [lit "name"; lit "email"; lit "password"; lit "profession"; lit "interest"].

Definition handleChange (name value : jstr) (form : props) : props :=
  spread_set form name (VStr value).

Definition handleSubmit (form : props) : alert :=
  Alert (lit "Sign up submitted!" ++ [10]) form.

(** The values a [select] can deliver: one of its enabled options. *)
Definition deliverable (name value : jstr) : bool :=
  if JsString.eqb name (lit "profession") then
    existsb (JsString.eqb value) professions
  else if JsString.eqb name (lit "interest") then
    existsb (JsString.eqb value) interests
  else true.

End sign_up_page.

(** ** The profile screen

    [Sidebar] and [MainContent] each hold a [selected] of their own; a
    click on a sidebar button writes the sidebar's one and, for the logout
    button, calls [onLogout]. *)

Module profile_page.

Record option_item : Type := mkOption {
  key : jstr;
  label : jstr;
  icon : jstr
}.

Definition options : list option_item :=
  [ mkOption (lit "history") (lit "Analysis History") (lit "src/assets/history.png");
    mkOption (lit "downloads") (lit "Downloads") (lit "src/assets/downloads.png");
    mkOption (lit "edit") (lit "Edit Profile") (lit "src/assets/edit_profile.png");
    mkOption (lit "logout") (lit "Logout") (lit "src/assets/logout.png") ].

(** The two [useState] cells, the first in [Sidebar], the second in
    [MainContent]. *)
Record pstate : Type := mkProfile {
  sidebar_selected : jstr;
  content_selected : jstr
}.

Definition mounted : pstate :=
  {| sidebar_selected := lit "history"; content_selected := lit "history" |}.

(** The [onClick] of the button of [opt]; the flag tells whether [onLogout]
    was called. *)
Definition onClick (opt : option_item) (s : pstate) : pstate * bool :=
  ({| sidebar_selected := key opt; content_selected := content_selected s |},
   JsString.eqb (key opt) (lit "logout")).


(** Is the button of [opt] drawn as the selected one? *)
Definition highlighted (s : pstate) (opt : option_item) : bool :=
  JsString.eqb (sidebar_selected s) (key opt).

Inductive block : Type :=
| HistoryBlock
| DownloadsBlock
| EditBlock
| WelcomeBlock.

(** The [switch] of [MainContent]. *)
Definition MainContent (selected : jstr) : block :=
  if JsString.eqb selected (lit "history") then HistoryBlock
  else if JsString.eqb selected (lit "downloads") then DownloadsBlock
  else if JsString.eqb selected (lit "edit") then EditBlock
  else WelcomeBlock.

(** Clicks on the sidebar buttons, by position; a position without a button
    does nothing. *)
Definition click (s : pstate) (i : nat) : pstate :=
  match nth_error options i with
  | Some opt => fst (onClick opt s)
  | None => s
  end.

Definition clicks (s : pstate) (ks : list nat) : pstate := fold_left click ks s.

End profile_page.

(** ** The application as composed

    [MainScreen] with the three screens it mounts.  A child's state lives
    while the child is mounted and starts afresh on every mount. *)

Inductive user_event : Type :=
| LandingSignUp
| LandingLogIn
| LandingWelcome
| LandingType (value : jstr)
| LandingQuick
| LandingDetailed
| LandingSubmit
| Response (k : nat) (o : fetch_outcome)
| LoginChange (name value : jstr)
| LoginSubmit
| LoginArrow
| LoginSignUpLink
| SignUpChange (name value : jstr)
| SignUpSubmit
| SignUpArrow
| SignUpLoginLink
| ProfileArrow
| SidebarClick (i : nat).

Record app : Type := mkApp {
  main : config;
  login_form : props;
  signup_form : props;
  profile : profile_page.pstate;
  alerts : list alert
}.

Definition app_boot : app :=
  {| main := boot;
     login_form := login_screen.initial_form;
     signup_form := sign_up_page.initial_form;
     profile := profile_page.mounted;
     alerts := [] |}.

(** The event of [MainScreen] a user event amounts to, when it reaches
    [MainScreen] at all.  The links on the auth screens call [onBack] with
    an argument, which the callbacks they were given ignore. *)
Definition to_main (u : user_event) : option event :=
  match u with
  | LandingSignUp => Some ClickSignUp
  | LandingLogIn => Some ClickLogIn
  | LandingWelcome => Some ClickWelcome
  | LandingType value => Some (TextareaChange value)
  | LandingQuick => Some QuickChange
  | LandingDetailed => Some DetailedChange
  | LandingSubmit => Some FormSubmit
  | Response k o => Some (Settle k o)
  | LoginArrow | LoginSignUpLink => Some LoginBack
  | SignUpArrow | SignUpLoginLink => Some SignUpBack
  | ProfileArrow => Some ProfileBack
  | SidebarClick i =>
      match nth_error profile_page.options i with
      | Some opt =>
          if snd (profile_page.onClick opt profile_page.mounted)
          then Some ProfileBack else None
      | None => None
      end
  | LoginChange _ _ | LoginSubmit | SignUpChange _ _ | SignUpSubmit => None
  end.

(** The children's own handlers. *)
Definition child_step (a : app) (u : user_event) : app :=
  match u, MainScreen (ui (main a)) with
  | LoginChange name value, LoginScreen =>
      if existsb (JsString.eqb name) login_screen.input_names then
        mkApp (main a) (login_screen.handleChange name value (login_form a))
              (signup_form a) (profile a) (alerts a)
      else a
  | LoginSubmit, LoginScreen =>
      mkApp (main a) (login_form a) (signup_form a) (profile a)
            (alerts a ++ [login_screen.handleSubmit (login_form a)])
  | SignUpChange name value, SignUpPage =>
      if existsb (JsString.eqb name) sign_up_page.input_names
         && sign_up_page.deliverable name value then
        mkApp (main a) (login_form a)
              (sign_up_page.handleChange name value (signup_form a))
              (profile a) (alerts a)
      else a
  | SignUpSubmit, SignUpPage =>
      mkApp (main a) (login_form a) (signup_form a) (profile a)
            (alerts a ++ [sign_up_page.handleSubmit (signup_form a)])
  | SidebarClick i, ProfilePage _ =>
      mkApp (main a) (login_form a) (signup_form a)
            (profile_page.click (profile a) i) (alerts a)
  | _, _ => a
  end.

(** The parent's callback, delivered only if the control is on screen. *)
Definition parent_step (a : app) (u : user_event) : app :=
  match to_main u with
  | Some e =>
      mkApp (step (main a) e) (login_form a) (signup_form a) (profile a)
            (alerts a)
  | None => a
  end.

(** A child that is not on screen is unmounted; its next mount starts from
    the initial state. *)
Definition remount (a : app) : app :=
  let v := MainScreen (ui (main a)) in
  mkApp (main a)
        (match v with LoginScreen => login_form a
                    | _ => login_screen.initial_form end)
        (match v with SignUpPage => signup_form a
                    | _ => sign_up_page.initial_form end)
        (match v with ProfilePage _ => profile a
                    | _ => profile_page.mounted end)
        (alerts a).

Definition app_step (a : app) (u : user_event) : app :=
  remount (parent_step (child_step a u) u).

Definition app_run (a : app) (us : list user_event) : app :=
  fold_left app_step us a.

(** A form whose fields are the given names, in order, each holding a
    string. *)
Definition string_fields (names : list jstr) (form : props) : Prop :=
  keys form = names
  /\ Forall (fun kv => exists s, snd kv = VStr s) form.

(** The value of a [select]: still unset, or one of its options. *)
Definition unset_or_among (choices : list jstr) (v : jsval) : Prop :=
  v = VStr (lit "") \/ exists s, v = VStr s /\ In s choices.

(** The forms of the two auth screens keep their fields: strings under the
    names they started with, the two selects unset or at one of their
    options. *)
Definition forms_intact (a : app) : Prop :=
  string_fields login_screen.input_names (login_form a)
  /\ string_fields sign_up_page.input_names (signup_form a)
  /\ unset_or_among sign_up_page.professions
       (lookup (lit "profession") (signup_form a))
  /\ unset_or_among sign_up_page.interests
       (lookup (lit "interest") (signup_form a)).

(** ** The stand-alone analysis page

    Its [handleAnalyze] looks for two keywords in the text and stores one of
    three fixed messages. *)

Module analysis_page.

Definition is_ascii_upper (c : code_unit) : bool := (65 <=? c) && (c <=? 90).

Definition lower (c : code_unit) : code_unit :=
  if is_ascii_upper c then c + 32 else c.

(** [String.prototype.toLowerCase].  The ASCII capitals are lowered.  A code
    unit from 128 on stands for its own lower-case mapping: that mapping may
    be longer than one code unit, but it is never empty and never holds one
    of the letters of the two keywords, so the searches below find the same
    on it. *)
Definition toLowerCase (s : jstr) : jstr := map lower s.

Fixpoint startsWith (pat s : jstr) : bool :=
  match pat, s with
  | [], _ => true
  | _ :: _, [] => false
  | p :: pat', c :: s' => (p =? c) && startsWith pat' s'
  end.

(** [s.includes(pat)] *)
Fixpoint includes (s pat : jstr) : bool :=
  startsWith pat s
  || match s with
     | [] => false
     | _ :: rest => includes rest pat
     end.

Definition fraud_message : jstr := lit "Potential fraud detected!".
Definition clean_message : jstr := lit "No issues detected.".

(** The string handed to [setResult]. *)
Definition handleAnalyze (input : jstr) : jstr :=
  if negb (JsString.truthy (trim input)) then validation_message
  else if includes (toLowerCase input) (lit "scam")
          || includes (toLowerCase input) (lit "fraud")
       then fraud_message
       else clean_message.

(** The text holds [scam] or [fraud] in some mix of upper and lower case. *)
Definition mentions_keyword (input : jstr) : Prop :=
  exists pre w post,
    input = pre ++ w ++ post
    /\ (toLowerCase w = lit "scam" \/ toLowerCase w = lit "fraud").

End analysis_page.

(** What React puts on screen for a falsy value handed to it as a child:
    nothing for [null], [undefined], [false] and the empty string, while a
    number is printed, and the falsy numbers print as [0] (both zeros) and
    [NaN]. *)
Definition falsy_child_text (v : jsval) : jstr :=
  match v with
  | VNum (S754_zero _) => lit "0"
  | VNum S754_nan => lit "NaN"
  | _ => lit ""
  end.

Definition is_digit (c : code_unit) : bool := (48 <=? c) && (c <=? 57).

Definition decimal_value (s : jstr) : N :=
  fold_left (fun acc c => acc * 10 + (c - 48)) s 0.

(** Is the property name an array index: the decimal numeral, without
    leading zero, of an integer below 2^32 - 1?  An object lists such names
    first, in numeric order, whenever they were added. *)
Definition is_array_index (name : jstr) : bool :=
  match name with
  | [] => false
  | c :: rest =>
      forallb is_digit name
      && (negb (c =? 48) || match rest with [] => true | _ :: _ => false end)
      && (decimal_value name <? 4294967295)
  end.

(** * Properties *)

Lemma jstr_eqb_eq (a b : jstr) : JsString.eqb a b = true <-> a = b.
Proof.
  revert b. induction a as [|x a IH]; destruct b as [|y b]; simpl;
    try (split; congruence).
  rewrite andb_true_iff, N.eqb_eq, IH. split.
  - intros [-> ->]. reflexivity.
  - intros H. injection H as -> ->. split; reflexivity.
Qed.

Example trim_ex : trim (lit "  a b  ") = lit "a b".
Proof. reflexivity. Qed.

Example test_ex1 : UrlPattern.test (lit "HTTPS://x") = true.
Proof. reflexivity. Qed.

Example test_ex2 : UrlPattern.test (lit "http:/x") = false.
Proof. reflexivity. Qed.

Example test_ex3 : UrlPattern.test (lit " http://x") = false.
Proof. reflexivity. Qed.

Example run_ex :
  sent (run boot [ClickLogIn; AuthSuccess (lit "Asha");
                  TextareaChange (lit " see https://x.io "); DetailedChange;
                  FormSubmit; FormSubmit])
  = [ {| job_text := lit "see https://x.io"; job_url := lit "";
         company_name := lit ""; analysis_type := lit "detailed";
         job_title := lit "" |} ].
Proof. reflexivity. Qed.

(** ** Trimming *)

Section Trim.

Lemma trimStart_nil_iff (s : jstr) :
  trimStart s = [] <-> all_white_space s = true.
Proof.
  induction s as [|c s IH]; simpl; [tauto|].
  destruct (is_white_space c); simpl; [exact IH|].
  split; discriminate.
Qed.

Lemma trimStart_head (s t : jstr) (c : code_unit) :
  trimStart s = c :: t -> is_white_space c = false.
Proof.
  induction s as [|d s IH]; simpl; [discriminate|].
  destruct (is_white_space d) eqn:Hd; [exact IH|].
  intros H; injection H as -> _. exact Hd.
Qed.

Lemma all_white_space_rev (s : jstr) :
  all_white_space (rev s) = all_white_space s.
Proof.
  unfold all_white_space. induction s as [|c s IH]; simpl; [reflexivity|].
  rewrite forallb_app, IH. simpl. rewrite andb_true_r. apply andb_comm.
Qed.

(** Trimming leaves nothing exactly when the string is empty or made of
    white space only. *)
Lemma trim_nil_iff (s : jstr) : trim s = [] <-> all_white_space s = true.
Proof.
  unfold trim, trimEnd. split.
  - intros H. apply (f_equal (@rev _)) in H. rewrite rev_involutive in H.
    simpl in H. apply trimStart_nil_iff in H.
    rewrite all_white_space_rev in H.
    destruct (trimStart s) as [|c t] eqn:Hs.
    + apply trimStart_nil_iff. exact Hs.
    + apply trimStart_head in Hs. simpl in H. rewrite Hs in H. discriminate.
  - intros H. apply trimStart_nil_iff in H. rewrite H. reflexivity.
Qed.

Lemma truthy_trim_false_iff (s : jstr) :
  JsString.truthy (trim s) = false <-> all_white_space s = true.
Proof.
  rewrite <- trim_nil_iff. destruct (trim s); simpl; split;
    congruence.
Qed.

Lemma truthy_iff_nonempty (s : jstr) : JsString.truthy s = true <-> s <> [].
Proof. destruct s; simpl; split; congruence. Qed.

Lemma trimStart_snoc (l : jstr) (c : code_unit) :
  is_white_space c = false -> trimStart (l ++ [c]) = trimStart l ++ [c].
Proof.
  intros Hc. induction l as [|d l IH]; simpl.
  - rewrite Hc. reflexivity.
  - destruct (is_white_space d); [exact IH | reflexivity].
Qed.

Lemma trimEnd_cons (c : code_unit) (s : jstr) :
  is_white_space c = false -> trimEnd (c :: s) = c :: trimEnd s.
Proof.
  intros Hc. unfold trimEnd. simpl. rewrite trimStart_snoc by exact Hc.
  rewrite rev_app_distr. reflexivity.
Qed.

(** A non-empty prefix free of white space survives trimming. *)
Lemma trim_prefix (pre r : jstr) :
  pre <> [] ->
  Forall (fun c => is_white_space c = false) pre ->
  trim (pre ++ r) = pre ++ trimEnd r.
Proof.
  intros Hne Hall. unfold trim.
  destruct pre as [|c pre]; [congruence|].
  inversion Hall as [|c' pre' Hc Hpre]; subst.
  simpl. rewrite Hc. clear Hne Hall.
  rewrite trimEnd_cons by exact Hc. f_equal.
  induction Hpre as [|d pre Hd Hpre IH]; simpl; [reflexivity|].
  rewrite trimEnd_cons by exact Hd. f_equal. exact IH.
Qed.

End Trim.

(** ** The URL test *)

Section Pattern.
Import UrlPattern.

Lemma match_seq_inv (pat s rest : jstr) :
  match_seq pat s = Some rest ->
  exists pre, s = pre ++ rest /\ matches_all pat pre.
Proof.
  revert s. induction pat as [|p pat IH]; intros s H; simpl in H.
  - injection H as ->. exists []. split; [reflexivity | constructor].
  - destruct s as [|c s]; [discriminate|].
    destruct (char_matches p c) eqn:Hpc; [|discriminate].
    destruct (IH _ H) as (pre & -> & Hpre).
    exists (c :: pre). split; [reflexivity | constructor; assumption].
Qed.

Lemma match_seq_app (pat pre r : jstr) :
  matches_all pat pre -> match_seq pat (pre ++ r) = Some r.
Proof.
  induction 1 as [|p c pat pre Hpc _ IH]; simpl; [reflexivity|].
  rewrite Hpc. exact IH.
Qed.

Lemma Canonicalize_cases (c : code_unit) :
  Canonicalize c = c \/ (97 <= c /\ Canonicalize c = c - 32).
Proof.
  unfold Canonicalize, is_ascii_lower.
  destruct (97 <=? c) eqn:H1; simpl; [|left; reflexivity].
  destruct (c <=? 122); [|left; reflexivity].
  right. split; [apply N.leb_le; exact H1 | reflexivity].
Qed.

(** No code unit that matches a character of the pattern is white space. *)
Lemma pattern_char_not_space (p c : code_unit) :
  In p (lit "https://") -> char_matches p c = true ->
  is_white_space c = false.
Proof.
  intros Hin Hm. unfold char_matches in Hm. apply N.eqb_eq in Hm.
  vm_compute in Hin.
  assert (Hc : c = 104 \/ c = 72 \/ c = 116 \/ c = 84 \/ c = 112 \/ c = 80
               \/ c = 115 \/ c = 83 \/ c = 58 \/ c = 47).
  { repeat (destruct Hin as [<- | Hin];
      [ match type of Hm with
        | Canonicalize ?q = _ =>
            let v := eval vm_compute in (Canonicalize q) in
            change (Canonicalize q) with v in Hm
        end;
        destruct (Canonicalize_cases c) as [E | [Hge E]]; rewrite E in Hm;
        lia |]).
    contradiction. }
  repeat (destruct Hc as [-> | Hc]; [reflexivity|]). subst c. reflexivity.
Qed.

Lemma matches_all_not_space (pat pre : jstr) :
  incl pat (lit "https://") -> matches_all pat pre ->
  Forall (fun c => is_white_space c = false) pre.
Proof.
  intros Hincl H. induction H as [|p c pat pre Hpc _ IH]; constructor.
  - apply pattern_char_not_space with (p := p);
      [apply Hincl; left; reflexivity | exact Hpc].
  - apply IH. intros x Hx. apply Hincl. right. exact Hx.
Qed.

Lemma matches_all_nonempty (pat pre : jstr) :
  pat <> [] -> matches_all pat pre -> pre <> [].
Proof. intros Hne H. destruct H; congruence. Qed.

(** Every string the pattern accepts is still accepted, and is not empty,
    once trimmed. *)
Lemma test_trim (s : jstr) :
  test s = true -> test (trim s) = true /\ trim s <> [].
Proof.
  unfold test. destruct (match_seq (lit "http") s) as [rest|] eqn:H4;
    [|discriminate].
  apply match_seq_inv in H4. destruct H4 as (pre4 & -> & Hpre4).
  assert (Hs4 : Forall (fun c => is_white_space c = false) pre4).
  { apply (matches_all_not_space (pat := lit "http")); [|exact Hpre4].
    vm_compute. tauto. }
  assert (Hne4 : pre4 <> []).
  { apply (matches_all_nonempty (pat := lit "http")); [|exact Hpre4].
    vm_compute. discriminate. }
  intros H. rewrite trim_prefix by assumption.
  split; [|destruct pre4; [congruence | discriminate]].
  rewrite match_seq_app by exact Hpre4.
  apply orb_true_iff in H. apply orb_true_iff. destruct H as [H | H].
  - left. destruct (match_seq (lit "s") rest) as [rest'|] eqn:H1;
      [|discriminate].
    apply match_seq_inv in H1. destruct H1 as (pre1 & -> & Hpre1).
    unfold matches_seq in H.
    destruct (match_seq (lit "://") rest') as [r|] eqn:H3; [|discriminate].
    apply match_seq_inv in H3. destruct H3 as (pre3 & -> & Hpre3).
    assert (Hs : Forall (fun c => is_white_space c = false) (pre1 ++ pre3)).
    { apply Forall_app. split.
      - apply (matches_all_not_space (pat := lit "s")); [|exact Hpre1].
        vm_compute. tauto.
      - apply (matches_all_not_space (pat := lit "://")); [|exact Hpre3].
        vm_compute. tauto. }
    assert (Hne : pre1 ++ pre3 <> []).
    { apply (matches_all_nonempty (pat := lit "s")) in Hpre1;
        [|vm_compute; discriminate].
      destruct pre1; [congruence | discriminate]. }
    assert (E : trimEnd ((pre1 ++ pre3) ++ r) = (pre1 ++ pre3) ++ trimEnd r).
    { generalize (trim_prefix r Hne Hs). unfold trim.
      destruct (pre1 ++ pre3) as [|c l] eqn:El; [congruence|].
      inversion Hs as [|? ? Hc _]; subst. simpl. rewrite Hc. tauto. }
    rewrite <- app_assoc in E. rewrite E, <- app_assoc.
    rewrite match_seq_app by exact Hpre1.
    unfold matches_seq. rewrite match_seq_app by exact Hpre3. reflexivity.
  - right. unfold matches_seq in H |- *.
    destruct (match_seq (lit "://") rest) as [r|] eqn:H3; [|discriminate].
    apply match_seq_inv in H3. destruct H3 as (pre3 & -> & Hpre3).
    assert (Hs : Forall (fun c => is_white_space c = false) pre3).
    { apply (matches_all_not_space (pat := lit "://")); [|exact Hpre3].
      vm_compute. tauto. }
    assert (Hne : pre3 <> []).
    { apply (matches_all_nonempty (pat := lit "://")); [|exact Hpre3].
      vm_compute. discriminate. }
    assert (E : trimEnd (pre3 ++ r) = pre3 ++ trimEnd r).
    { generalize (trim_prefix r Hne Hs). unfold trim.
      destruct pre3 as [|c l]; [congruence|].
      inversion Hs as [|? ? Hc _]; subst. simpl. rewrite Hc. tauto. }
    rewrite E. rewrite match_seq_app by exact Hpre3. reflexivity.
Qed.

End Pattern.

(** ** The submitted request *)

Section Request.

Lemma handleAnalyze_request (s : state) :
  trim (input s) <> [] ->
  handleAnalyze s =
    (setLoading true (setResult VNull s),
     Some (make_payload (input s) (analysisType s))).
Proof.
  intros H. unfold handleAnalyze.
  apply truthy_iff_nonempty in H. rewrite H. reflexivity.
Qed.

Lemma handleAnalyze_validation (s : state) :
  all_white_space (input s) = true ->
  handleAnalyze s =
    (setResult (error_object (VStr validation_message)) (setResult VNull s),
     None).
Proof.
  intros H. unfold handleAnalyze.
  apply truthy_trim_false_iff in H. rewrite H. reflexivity.
Qed.

End Request.

(** C1, as stated, fails.  The value [" http://a"] is not empty and does not
    begin with the prefix, yet its request carries the URL in [job_url] and
    an empty [job_text]: the handler tests the trimmed value. *)
Lemma C1_blank_then_url_goes_to_job_url :
  UrlPattern.test blank_then_url = false /\
  blank_then_url <> [] /\
  exists p,
    snd (handleAnalyze (setInput blank_then_url initial)) = Some p /\
    job_url p = lit "http://a" /\ job_text p = lit "" /\
    ~ (job_text p <> [] /\ job_url p = []).
Proof.
  split; [reflexivity|]. split; [discriminate|].
  eexists. split; [reflexivity|]. split; [reflexivity|].
  split; [reflexivity|]. intros [_ H]. discriminate H.
Qed.

(** C1, amended.  Whenever the field value begins with [http://] or
    [https://] in any letter case, or is merely non-empty once trimmed, the
    handler submits one request.  The request is routed by the trimmed
    value: if that begins with the prefix, [job_url] is the trimmed value,
    non-empty, and [job_text] is empty; otherwise [job_text] is the trimmed
    value, non-empty, and [job_url] is empty.  A value that itself begins
    with the prefix always takes the first route.  Exactly one of the two
    fields is non-empty. *)
Theorem C1_request_routed_by_trimmed_input (s : state) :
  UrlPattern.test (input s) = true \/ trim (input s) <> [] ->
  exists p,
    snd (handleAnalyze s) = Some p /\
    routed_by_trimmed_input s p /\
    (UrlPattern.test (input s) = true ->
       job_url p = trim (input s) /\ job_url p <> [] /\ job_text p = []) /\
    exactly_one_nonempty p.
Proof.
  intros H.
  assert (Hne : trim (input s) <> []).
  { destruct H as [H | H]; [apply test_trim in H; tauto | exact H]. }
  exists (make_payload (input s) (analysisType s)).
  rewrite handleAnalyze_request by exact Hne.
  split; [reflexivity|].
  assert (R : routed_by_trimmed_input s (make_payload (input s) (analysisType s))).
  { unfold routed_by_trimmed_input, make_payload. simpl.
    split; intros E; rewrite E; auto. }
  split; [exact R|]. split.
  - intros E. apply test_trim in E. destruct E as [E _].
    destruct R as [R _]. exact (R E).
  - unfold exactly_one_nonempty, make_payload. simpl.
    apply truthy_iff_nonempty in Hne.
    destruct (UrlPattern.test (trim (input s))); simpl; rewrite Hne;
      reflexivity.
Qed.

(** An upper-case URL between blanks is sent as [job_url], trimmed. *)
Lemma C1_request_routed_by_trimmed_input_witness :
  let s := setInput (lit "  HTTPS://Jobs.example/1 ") initial in
  (UrlPattern.test (input s) = true \/ trim (input s) <> []) /\
  exists p,
    snd (handleAnalyze s) = Some p /\
    routed_by_trimmed_input s p /\
    (UrlPattern.test (input s) = true ->
       job_url p = trim (input s) /\ job_url p <> [] /\ job_text p = []) /\
    exactly_one_nonempty p.
Proof.
  intros s.
  assert (H : UrlPattern.test (input s) = true \/ trim (input s) <> []).
  { right. vm_compute. discriminate. }
  split; [exact H|].
  exact (C1_request_routed_by_trimmed_input s H).
Defined.

(** C2.  When the field value is empty or white space only, the handler
    hands nothing to [fetch], leaves the loading flag alone and stores the
    object whose [error] is the fixed validation message, which the error
    panel then shows; on the mounted component such a submit adds nothing to
    the log of requests.  When the value is non-empty after trimming, the
    validation branch is not taken: a request is handed to [fetch] and the
    stored result is the cleared one. *)
Theorem C2_blank_input_is_rejected_locally (s : state) :
  (all_white_space (input s) = true ->
     snd (handleAnalyze s) = None /\
     result (fst (handleAnalyze s)) = error_object (VStr validation_message) /\
     loading (fst (handleAnalyze s)) = loading s /\
     render_panel (result (fst (handleAnalyze s)))
       = ErrorPanel (VStr validation_message) /\
     forall c, ui c = s -> sent (step c FormSubmit) = sent c)
  /\ (trim (input s) <> [] ->
     exists p, snd (handleAnalyze s) = Some p /\
               result (fst (handleAnalyze s)) = VNull).
Proof.
  split.
  - intros H. rewrite handleAnalyze_validation by exact H. simpl.
    repeat split.
    intros c <-. unfold step.
    destruct (MainScreen (ui c)); try reflexivity.
    destruct (submit_disabled m); [reflexivity|].
    unfold submit. rewrite handleAnalyze_validation by exact H.
    simpl. apply app_nil_r.
  - intros H. rewrite handleAnalyze_request by exact H. simpl. eauto.
Qed.

(** Three blanks are rejected locally; a padded description is sent. *)
Lemma C2_blank_input_is_rejected_locally_witness :
  let blank := setInput (lit "   ") initial in
  let filled := setInput (lit " remote data entry, pay upfront ") initial in
  all_white_space (input blank) = true /\
  trim (input filled) <> [] /\
  snd (handleAnalyze blank) = None /\
  result (fst (handleAnalyze blank)) = error_object (VStr validation_message) /\
  exists p, snd (handleAnalyze filled) = Some p /\
            result (fst (handleAnalyze filled)) = VNull.
Proof.
  intros blank filled.
  assert (Hb : all_white_space (input blank) = true) by reflexivity.
  assert (Hf : trim (input filled) <> []) by (vm_compute; discriminate).
  split; [exact Hb|]. split; [exact Hf|].
  destruct (C2_blank_input_is_rejected_locally blank) as [Hblank _].
  destruct (C2_blank_input_is_rejected_locally filled) as [_ Hfilled].
  destruct (Hblank Hb) as (H1 & H2 & _).
  split; [exact H1|]. split; [exact H2|]. exact (Hfilled Hf).
Defined.

(** C7.  Every request the handler submits has empty [company_name] and
    [job_title]; for the field value ["https://example.com/job/123"] with
    analysis type ["detailed"] the request is exactly the one the
    specification lists. *)
Theorem C7_reserved_fields_are_empty (s : state) (p : payload) :
  snd (handleAnalyze s) = Some p ->
  company_name p = lit "" /\ job_title p = lit "" /\
  snd (handleAnalyze
         (setAnalysisType (lit "detailed")
            (setInput (lit "https://example.com/job/123") s)))
  = Some {| job_text := lit "";
            job_url := lit "https://example.com/job/123";
            company_name := lit "";
            analysis_type := lit "detailed";
            job_title := lit "" |}.
Proof.
  unfold handleAnalyze.
  destruct (negb (JsString.truthy (trim (input s)))); simpl; [discriminate|].
  intros H. injection H as <-. repeat split.
Qed.

(** The request of the specification's example. *)
Lemma C7_reserved_fields_are_empty_witness :
  let s := setAnalysisType (lit "detailed")
             (setInput (lit "https://example.com/job/123") initial) in
  let p := {| job_text := lit "";
              job_url := lit "https://example.com/job/123";
              company_name := lit "";
              analysis_type := lit "detailed";
              job_title := lit "" |} in
  snd (handleAnalyze s) = Some p /\
  company_name p = lit "" /\ job_title p = lit "".
Proof.
  intros s p.
  assert (H : snd (handleAnalyze s) = Some p) by reflexivity.
  split; [exact H|].
  destruct (C7_reserved_fields_are_empty s H) as (H1 & H2 & _).
  split; [exact H1 | exact H2].
Defined.

(** ** Settling a request *)

Section Outcome.

Lemma get_prop_error_object (e : jsval) :
  get_prop (error_object e) (lit "error") = e.
Proof. reflexivity. Qed.

Lemma render_panel_error_object (e : jsval) :
  truthy e = true -> render_panel (error_object e) = ErrorPanel e.
Proof.
  intros H. unfold render_panel. rewrite get_prop_error_object.
  unfold js_and. simpl. rewrite H. reflexivity.
Qed.

(** A value with a truthy [error] is shown by the error panel, whatever
    else it holds. *)
Lemma render_panel_truthy_error (r : jsval) :
  truthy (get_prop r (lit "error")) = true ->
  render_panel r = ErrorPanel (get_prop r (lit "error")).
Proof.
  intros H. unfold render_panel, js_and.
  destruct (truthy r) eqn:Hr.
  - rewrite H. reflexivity.
  - destruct r; discriminate.
Qed.

Lemma render_panel_falsy_error (r : jsval) :
  truthy (get_prop r (lit "error")) = false ->
  forall e, render_panel r <> ErrorPanel e.
Proof.
  intros H e. unfold render_panel, js_and.
  destruct (truthy r) eqn:Hr.
  - rewrite H. simpl. destruct (typeof_object r); discriminate.
  - rewrite Hr. simpl. discriminate.
Qed.

Lemma type_error_message_nonempty (v : jsval) (k : jstr) :
  JsString.truthy (type_error_message v k) = true.
Proof. reflexivity. Qed.

Lemma truthy_js_or_fallback (e : jsval) :
  truthy (js_or e (VStr fallback_message)) = true.
Proof. unfold js_or. destruct (truthy e) eqn:H; [exact H | reflexivity]. Qed.

Lemma result_settle (o : fetch_outcome) (s : state) :
  result (handleAnalyze_settle o s) =
    match try_block o with
    | Return r => r
    | Throw message => error_object (VStr message)
    end.
Proof. unfold handleAnalyze_settle. destruct (try_block o); reflexivity. Qed.

Lemma loading_settle (o : fetch_outcome) (s : state) :
  loading (handleAnalyze_settle o s) = false.
Proof. reflexivity. Qed.

End Outcome.

Lemma try_block_throw_json (resp : response) (message : jstr) :
  json resp = Throw message -> try_block (Return resp) = Throw message.
Proof. intros H. unfold try_block. simpl. rewrite H. reflexivity. Qed.

Section TryBlock.

Variables (resp : response) (data : jsval).
Hypothesis Hjson : json resp = Return data.

Lemma try_block_member_throws (message : jstr) :
  member data (lit "error") = Throw message ->
  try_block (Return resp) = Throw message.
Proof.
  intros H. unfold try_block. simpl. rewrite Hjson. simpl. rewrite H.
  destruct (negb (ok resp)); reflexivity.
Qed.

Lemma try_block_member_returns (e : jsval) :
  member data (lit "error") = Return e ->
  try_block (Return resp) =
    Return (if negb (ok resp) || truthy e
            then error_object (js_or e (VStr fallback_message))
            else data).
Proof.
  intros H. unfold try_block. simpl. rewrite Hjson. simpl. rewrite H.
  destruct (negb (ok resp)); simpl; [reflexivity|].
  destruct (truthy e); reflexivity.
Qed.

End TryBlock.

Lemma member_cases (v : jsval) (k : jstr) :
  (member v k = Throw (type_error_message v k) /\ (v = VNull \/ v = VUndefined))
  \/ (member v k = Return (get_prop v k) /\ v <> VNull /\ v <> VUndefined).
Proof.
  destruct v; simpl; auto; right; repeat split; discriminate.
Qed.

(** C3, as stated, fails in two ways.  A [fetch] that rejects with an empty
    message is a failure, yet the stored result is [{ error: "" }], whose
    [error] is empty, and the success panel is rendered, not the error
    panel.  And a 200 response whose body is [null] has a 2xx status, no
    [error] field and no rejected call, yet it is treated as a failure: the
    error panel shows the TypeError of reading [error] of [null]. *)
Lemma C3_empty_message_and_null_body :
  (rejects empty_rejection = true
   /\ result (handleAnalyze_settle empty_rejection initial)
      = error_object (VStr (lit ""))
   /\ truthy (VStr (lit "")) = false
   /\ render_panel (result (handleAnalyze_settle empty_rejection initial))
      = ResultPanel (render_result (error_object (VStr (lit "")))))
  /\ (named_failure null_body_200 = false
      /\ result (handleAnalyze_settle null_body_200 initial)
         = error_object (VStr (type_error_message VNull (lit "error")))
      /\ render_panel (result (handleAnalyze_settle null_body_200 initial))
         = ErrorPanel (VStr (type_error_message VNull (lit "error")))).
Proof. repeat split. Qed.

(** C3, amended.  An outcome is treated as a failure exactly when the status
    is not 2xx, the parsed body has a truthy [error], the call rejects, or
    the parsed body is [null]: then the stored result is an object
    [{ error: e }], and, provided the error raised by a rejecting [fetch] or
    [json()] carries a non-empty message, [e] is truthy and the error panel
    is rendered with it; every other outcome stores the parsed body itself
    and no error panel is rendered.  A body with a truthy [error] is shown
    by the error panel with that very [error], whatever other fields it
    has. *)
Theorem C3_failures_reach_the_error_panel (o : fetch_outcome) (s : state) :
  (is_failure o = true ->
     exists e,
       result (handleAnalyze_settle o s) = error_object e
       /\ (rejections_have_message o ->
           truthy e = true
           /\ render_panel (result (handleAnalyze_settle o s)) = ErrorPanel e))
  /\ (is_failure o = false ->
     exists resp data,
       o = Return resp /\ json resp = Return data /\
       result (handleAnalyze_settle o s) = data /\
       forall e, render_panel (result (handleAnalyze_settle o s)) <> ErrorPanel e)
  /\ (truthy (body_error o) = true ->
     render_panel (result (handleAnalyze_settle o s))
       = ErrorPanel (body_error o)).
Proof.
  rewrite result_settle.
  assert (Thrown : forall message,
            exists e, error_object (VStr message) = error_object e /\
                      (message <> [] ->
                       truthy e = true /\
                       render_panel (error_object (VStr message)) = ErrorPanel e)).
  { intros message. exists (VStr message). split; [reflexivity|].
    intros Hne.
    assert (T : truthy (VStr message) = true)
      by (apply truthy_iff_nonempty; exact Hne).
    split; [exact T|]. apply render_panel_error_object. exact T. }
  destruct o as [resp | message].
  2:{ split; [intros _; apply Thrown|]. split; discriminate. }
  unfold is_failure, named_failure, status_non_2xx, body_error, rejects,
    body_is_null, rejections_have_message.
  destruct (json resp) as [data | message] eqn:Hjson.
  2:{ rewrite (@try_block_throw_json resp message Hjson).
      split; [intros _; apply Thrown|].
      split; [rewrite orb_true_r|]; discriminate. }
  destruct (member_cases data (lit "error")) as [[Hm Hnull] | [Hm [Hn1 Hn2]]].
  - rewrite (@try_block_member_throws resp data Hjson _ Hm).
    split.
    + intros _.
      destruct (Thrown (type_error_message data (lit "error"))) as (e & E & H).
      exists e. split; [exact E|]. intros _. apply H.
      apply truthy_iff_nonempty. apply type_error_message_nonempty.
    + split; destruct Hnull as [-> | ->]; try discriminate;
        rewrite orb_true_r; discriminate.
  - rewrite (@try_block_member_returns resp data Hjson _ Hm).
    set (e := get_prop data (lit "error")).
    assert (Hnull : match data with
                    | VNull | VUndefined => true
                    | _ => false
                    end = false) by (destruct data; congruence).
    rewrite Hnull, !orb_false_r.
    destruct (negb (ok resp) || truthy e) eqn:Hf.
    + split.
      * intros _. exists (js_or e (VStr fallback_message)).
        split; [reflexivity|]. intros _.
        split; [apply truthy_js_or_fallback|].
        apply render_panel_error_object, truthy_js_or_fallback.
      * split; [discriminate|]. intros He. unfold js_or. rewrite He.
        apply render_panel_error_object. exact He.
    + split; [discriminate|]. split.
      * intros _. exists resp, data. repeat split; try assumption.
        apply render_panel_falsy_error.
        apply orb_false_iff in Hf. tauto.
      * intros He. apply orb_false_iff in Hf. fold e in Hf.
        rewrite He in Hf. destruct Hf; discriminate.
Qed.

(** A 200 response that carries both a risk score and an [error], and a
    [fetch] that rejects with the browser's message. *)
Lemma C3_failures_reach_the_error_panel_witness :
  let o : fetch_outcome :=
    Return {| status := 200;
              json := Return (VObj [(lit "risk_score", VNum (num_of_Z 12));
                                    (lit "error", VStr (lit "quota exceeded"))]) |} in
  let r : fetch_outcome := Throw (lit "Failed to fetch") in
  is_failure o = true /\
  render_panel (result (handleAnalyze_settle o initial))
    = ErrorPanel (VStr (lit "quota exceeded")) /\
  is_failure r = true /\ rejections_have_message r /\
  exists e,
    result (handleAnalyze_settle r initial) = error_object e
    /\ truthy e = true
    /\ render_panel (result (handleAnalyze_settle r initial)) = ErrorPanel e.
Proof.
  intros o r.
  assert (F : is_failure r = true) by reflexivity.
  assert (M : rejections_have_message r) by discriminate.
  destruct (C3_failures_reach_the_error_panel o initial) as (_ & _ & H3).
  destruct (C3_failures_reach_the_error_panel r initial) as (H1 & _).
  split; [reflexivity|]. split; [exact (H3 eq_refl)|].
  split; [exact F|]. split; [exact M|].
  destruct (H1 F) as (e & E & H). exists e.
  split; [exact E|]. exact (H M).
Defined.

(** ** The success panel *)

Section SuccessPanel.

Lemma render_panel_result_inv (r : jsval) (rv : result_view) :
  render_panel r = ResultPanel rv -> rv = render_result r.
Proof.
  unfold render_panel.
  destruct (truthy (js_and r (get_prop r (lit "error")))); [discriminate|].
  destruct (truthy r && typeof_object r).
  - intros H. injection H as <-. reflexivity.
  - destruct (truthy r); discriminate.
Qed.

Lemma pad_flags_spec (flags : list jsval) :
  pad_flags flags = flags ++ repeat no_flag (8 - List.length flags).
Proof.
  funelim (pad_flags flags).
  - match goal with IH : pad_flags _ = _ ++ _ |- _ => rewrite IH end.
    rewrite length_app, <- app_assoc. f_equal.
    change (List.length [no_flag]) with 1%nat.
    replace (8 - List.length flags)%nat
      with (S (8 - (List.length flags + 1)))%nat by lia.
    reflexivity.
  - replace (8 - List.length flags)%nat with 0%nat by lia.
    simpl. symmetry. apply app_nil_r.
Qed.

Lemma pad_flags_length (flags : list jsval) :
  (List.length flags <= 8)%nat -> List.length (pad_flags flags) = 8%nat.
Proof.
  intros H. rewrite pad_flags_spec, length_app, repeat_length. lia.
Qed.

Lemma flag_tiles_of_spec (analysis : jsval) :
  let entries := red_flag_entries analysis in
  let n := List.length entries in
  flag_tiles_of analysis =
    firstn (Nat.min n 8) entries ++ repeat no_flag (8 - Nat.min n 8).
Proof.
  intros entries n. unfold flag_tiles_of.
  assert (E : match get_prop analysis (lit "red_flags") with
              | VArr l => slice_0_8 l
              | _ => []
              end = firstn 8 entries).
  { unfold entries, red_flag_entries, slice_0_8.
    destruct (get_prop analysis (lit "red_flags")); reflexivity. }
  rewrite E, pad_flags_spec, length_firstn.
  fold n. rewrite (Nat.min_comm 8 n).
  f_equal. destruct (Nat.le_ge_cases n 8) as [H | H].
  - rewrite Nat.min_l by exact H. unfold n.
    rewrite !firstn_all2; [reflexivity | apply Nat.le_refl | exact H].
  - rewrite Nat.min_r by exact H. reflexivity.
Qed.

End SuccessPanel.

(** C4.  When the success panel is rendered for a result whose [analysis]
    is present (truthy), the grid has exactly 8 tiles: the first [min n 8]
    of the [n] entries of [analysis.red_flags], in order, then ["No flag"]
    until there are 8. *)
Theorem C4_flag_grid_has_eight_tiles (r : jsval) (rv : result_view) :
  render_panel r = ResultPanel rv ->
  truthy (get_prop r (lit "analysis")) = true ->
  let entries := red_flag_entries (get_prop r (lit "analysis")) in
  let n := List.length entries in
  exists tiles,
    flag_tiles rv = Some tiles /\
    tiles = firstn (Nat.min n 8) entries ++ repeat no_flag (8 - Nat.min n 8) /\
    List.length tiles = 8%nat.
Proof.
  intros Hp Ha entries n. apply render_panel_result_inv in Hp. subst rv.
  exists (flag_tiles_of (get_prop r (lit "analysis"))).
  split; [simpl; rewrite Ha; reflexivity|].
  split; [apply flag_tiles_of_spec|].
  rewrite flag_tiles_of_spec, length_app, length_firstn, repeat_length.
  fold entries. fold n. lia.
Qed.

(** Three flags are followed by five placeholders. *)
Lemma C4_flag_grid_has_eight_tiles_witness :
  let flags := [VStr (lit "upfront fee"); VStr (lit "no interview");
                VStr (lit "free email domain")] in
  let r := VObj [(lit "risk_score", VNum (num_of_Z 81));
                 (lit "analysis", VObj [(lit "red_flags", VArr flags)])] in
  render_panel r = ResultPanel (render_result r) /\
  truthy (get_prop r (lit "analysis")) = true /\
  flag_tiles (render_result r) =
    Some (flags ++ [no_flag; no_flag; no_flag; no_flag; no_flag]).
Proof.
  intros flags r.
  assert (Hp : render_panel r = ResultPanel (render_result r)) by reflexivity.
  assert (Ha : truthy (get_prop r (lit "analysis")) = true) by reflexivity.
  split; [exact Hp|]. split; [exact Ha|].
  destruct (C4_flag_grid_has_eight_tiles r Hp Ha) as (tiles & Ht & Hs & _).
  rewrite Ht, Hs. reflexivity.
Defined.

(** ** The risk bar *)

Section RiskBar.

Lemma SFltb_SFleb (a b : jsnum) : SFltb a b = true -> SFleb a b = true.
Proof.
  unfold SFltb, SFleb. destruct (SFcompare a b) as [[] |]; congruence.
Qed.

Lemma Math_min_100 (x : jsnum) :
  is_nan x = false ->
  Math_min [num_of_Z 100; x] =
    if SFltb x (num_of_Z 100) then x else num_of_Z 100.
Proof. destruct x as [[] | [] | | [] m e]; try discriminate; reflexivity. Qed.

Lemma Math_max_0 (y : jsnum) :
  is_nan y = false ->
  Math_max [num_of_Z 0; y] = if SFltb (num_of_Z 0) y then y else num_of_Z 0.
Proof. destruct y as [[] | [] | | [] m e]; try discriminate; reflexivity. Qed.

Lemma clamp_percent_cases (x : jsnum) :
  is_nan x = false ->
  clamp_percent x = num_of_Z 0 \/ clamp_percent x = num_of_Z 100
  \/ (clamp_percent x = x /\ SFltb (num_of_Z 0) x = true
      /\ SFltb x (num_of_Z 100) = true).
Proof.
  intros Hx. unfold clamp_percent. rewrite (Math_min_100 x Hx).
  destruct (SFltb x (num_of_Z 100)) eqn:H100.
  - rewrite (Math_max_0 x Hx).
    destruct (SFltb (num_of_Z 0) x) eqn:H0; auto.
  - right. left. reflexivity.
Qed.

End RiskBar.

(** C10.  For every risk score that is a number other than NaN, the percent
    used for the fill width and for the marker position is
    [Math.max(0, Math.min(100, risk_score))] and lies between 0 and 100. *)
Theorem C10_bar_percent_within_0_100 (x : jsnum) (r : jsval) (rv : result_view) :
  is_nan x = false ->
  render_panel r = ResultPanel rv ->
  get_prop r (lit "risk_score") = VNum x ->
  fill_width rv = Some (clamp_percent x) /\
  marker_left rv = Some (clamp_percent x) /\
  SFleb (num_of_Z 0) (clamp_percent x) = true /\
  SFleb (clamp_percent x) (num_of_Z 100) = true.
Proof.
  intros Hx Hp Hs. apply render_panel_result_inv in Hp. subst rv.
  unfold render_result, bar_percent. simpl fill_width. simpl marker_left.
  rewrite Hs. simpl ToNumber. simpl option_map.
  split; [reflexivity|]. split; [reflexivity|].
  destruct (clamp_percent_cases x Hx) as [E | [E | (E & H0 & H100)]];
    rewrite E.
  - split; reflexivity.
  - split; reflexivity.
  - split; apply SFltb_SFleb; assumption.
Qed.

(** A score of 250 fills the bar to 100 percent, -7 gives 0, 42 stays. *)
Lemma C10_bar_percent_within_0_100_witness :
  let r := VObj [(lit "risk_score", VNum (num_of_Z 250));
                 (lit "risk_level", VStr (lit "High"))] in
  is_nan (num_of_Z 250) = false /\
  render_panel r = ResultPanel (render_result r) /\
  get_prop r (lit "risk_score") = VNum (num_of_Z 250) /\
  fill_width (render_result r) = Some (num_of_Z 100) /\
  marker_left (render_result r) = Some (num_of_Z 100) /\
  clamp_percent (num_of_Z (-7)) = num_of_Z 0 /\
  clamp_percent (num_of_Z 42) = num_of_Z 42.
Proof.
  intros r.
  assert (Hx : is_nan (num_of_Z 250) = false) by reflexivity.
  assert (Hp : render_panel r = ResultPanel (render_result r)) by reflexivity.
  assert (Hs : get_prop r (lit "risk_score") = VNum (num_of_Z 250))
    by reflexivity.
  split; [exact Hx|]. split; [exact Hp|]. split; [exact Hs|].
  destruct (C10_bar_percent_within_0_100 r Hx Hp Hs) as (Hw & Hl & _).
  rewrite Hw, Hl. repeat split.
Defined.

(** ** Screen selection and the gate on the form *)

(** C8.  The flags are consulted in the order sign-up, login, profile: the
    sign-up screen is rendered when [showSignUp] is set, whatever the other
    flags; else the login screen when [showLogin] is set; else the profile
    screen when [showProfile] is set; else the landing screen.  For every
    combination of the flags exactly one screen is rendered. *)
Theorem C8_screen_selected_in_fixed_order (s : state) :
  (showSignUp s = true -> MainScreen s = SignUpPage)
  /\ (showSignUp s = false -> showLogin s = true -> MainScreen s = LoginScreen)
  /\ (showSignUp s = false -> showLogin s = false -> showProfile s = true ->
      MainScreen s = ProfilePage (userName s))
  /\ (showSignUp s = false -> showLogin s = false -> showProfile s = false ->
      MainScreen s = Main (render_main s))
  /\ (exists k, screen_of (MainScreen s) = k /\
                forall k', screen_of (MainScreen s) = k' -> k' = k).
Proof.
  unfold MainScreen.
  destruct (showSignUp s), (showLogin s), (showProfile s);
    repeat split; try discriminate; try reflexivity;
    eexists; split; try reflexivity; intros k' <-; reflexivity.
Qed.

(** Sign-up wins over login, and login wins over profile. *)
Lemma C8_screen_selected_in_fixed_order_witness :
  let both := setShowLogin true (setShowSignUp true initial) in
  let later := setShowProfile true (setShowLogin true initial) in
  showSignUp both = true /\ showLogin both = true /\
  MainScreen both = SignUpPage /\
  showSignUp later = false /\ showLogin later = true /\
  showProfile later = true /\ MainScreen later = LoginScreen.
Proof.
  intros both later.
  destruct (C8_screen_selected_in_fixed_order both) as (H1 & _).
  destruct (C8_screen_selected_in_fixed_order later) as (_ & H2 & _).
  split; [reflexivity|]. split; [reflexivity|].
  split; [exact (H1 eq_refl)|].
  split; [reflexivity|]. split; [reflexivity|]. split; [reflexivity|].
  exact (H2 eq_refl eq_refl).
Defined.

(** ** Runs of the mounted component *)

Section Runs.

Lemma step_settle (c : config) (k : nat) (o : fetch_outcome) :
  step c (Settle k o) = settle k o c.
Proof. unfold step. destruct (MainScreen (ui c)); reflexivity. Qed.

(** A submit is either not delivered, or runs the handler with the
    loading flag down and a user name set. *)
Lemma step_submit (c : config) :
  step c FormSubmit = c
  \/ (loading (ui c) = false /\ JsString.truthy (userName (ui c)) = true
      /\ step c FormSubmit = submit c).
Proof.
  unfold step. destruct (MainScreen (ui c)) as [| | n | m] eqn:Hv; auto.
  unfold MainScreen in Hv.
  destruct (showSignUp (ui c)), (showLogin (ui c)), (showProfile (ui c));
    try discriminate.
  injection Hv as <-. simpl.
  destruct (loading (ui c)); simpl; auto.
  destruct (JsString.truthy (userName (ui c))); simpl; auto.
Qed.

Lemma submit_cases (c : config) :
  (trim (input (ui c)) = [] /\ in_flight (submit c) = in_flight c
   /\ sent (submit c) = sent c /\ loading (ui (submit c)) = loading (ui c))
  \/ (exists p, p = make_payload (input (ui c)) (analysisType (ui c))
      /\ in_flight (submit c) = in_flight c ++ [p]
      /\ sent (submit c) = sent c ++ [p]
      /\ loading (ui (submit c)) = true).
Proof.
  unfold submit. destruct (trim (input (ui c))) as [|x t] eqn:Ht.
  - left. apply trim_nil_iff in Ht.
    rewrite handleAnalyze_validation by exact Ht. simpl.
    rewrite !app_nil_r. auto.
  - right. rewrite handleAnalyze_request by (rewrite Ht; discriminate).
    simpl. eauto.
Qed.

Lemma submit_keeps_selection (c : config) :
  analysisType (ui (submit c)) = analysisType (ui c)
  /\ userName (ui (submit c)) = userName (ui c).
Proof.
  unfold submit, handleAnalyze.
  destruct (negb (JsString.truthy (trim (input (ui c))))); split; reflexivity.
Qed.

Lemma settle_keeps_selection (c : config) (k : nat) (o : fetch_outcome) :
  analysisType (ui (settle k o c)) = analysisType (ui c)
  /\ userName (ui (settle k o c)) = userName (ui c)
  /\ sent (settle k o c) = sent c.
Proof.
  unfold settle. destruct (nth_error (in_flight c) k); [|auto].
  unfold handleAnalyze_settle. destruct (try_block o); auto.
Qed.

(** What every other event leaves alone. *)
Lemma step_frame (c : config) (e : event) :
  (forall k o, e <> Settle k o) -> e <> FormSubmit ->
  in_flight (step c e) = in_flight c
  /\ sent (step c e) = sent c
  /\ loading (ui (step c e)) = loading (ui c)
  /\ (is_auth_event e = false -> userName (ui (step c e)) = userName (ui c))
  /\ (analysisType (ui (step c e)) = analysisType (ui c)
      \/ (is_selector_event e = true
          /\ (analysisType (ui (step c e)) = lit "quick"
              \/ analysisType (ui (step c e)) = lit "detailed"))).
Proof.
  intros Hs Hf. unfold step.
  destruct e; try congruence; try (exfalso; eapply Hs; reflexivity);
    destruct (MainScreen (ui c)) as [| | n | m]; simpl;
    try destruct (welcome m); try destruct (textarea_disabled m);
    try destruct (quick_disabled m); try destruct (detailed_disabled m);
    try destruct (JsString.truthy (userName (ui c)));
    simpl; repeat split; auto; discriminate.
Qed.

Lemma run_snoc (c : config) (evs : list event) (e : event) :
  run c (evs ++ [e]) = step (run c evs) e.
Proof. unfold run. rewrite fold_left_app. reflexivity. Qed.

(** A property of the start that every allowed event preserves holds after
    every run of allowed events. *)
Lemma run_invariant (P : config -> Prop) (allowed : event -> bool) :
  P boot ->
  (forall c e, allowed e = true -> P c -> P (step c e)) ->
  forall evs, forallb allowed evs = true -> P (run boot evs).
Proof.
  intros H0 Hstep evs. induction evs as [|e evs IH] using rev_ind.
  - intros _. exact H0.
  - rewrite forallb_app. simpl. rewrite andb_true_r.
    intros H. apply andb_true_iff in H. destruct H as [H1 H2].
    rewrite run_snoc. apply Hstep; [exact H2 | apply IH; exact H1].
Qed.

Lemma forallb_any_event (evs : list event) : forallb any_event evs = true.
Proof. induction evs; simpl; auto. Qed.

Lemma one_request_guard_frame (c c' : config) :
  in_flight c' = in_flight c -> loading (ui c') = loading (ui c) ->
  one_request_guard c -> one_request_guard c'.
Proof. unfold one_request_guard. intros -> ->. tauto. Qed.

Lemma one_request_guard_settle (c : config) (k : nat) (o : fetch_outcome) :
  one_request_guard c -> one_request_guard (settle k o c).
Proof.
  intros G. unfold settle.
  destruct (nth_error (in_flight c) k) as [q|] eqn:Hk; [|exact G].
  destruct G as [[G1 G2] | (p & G1 & G2)]; rewrite G1 in Hk.
  - destruct k; discriminate.
  - left. simpl. rewrite G1. destruct k as [|k]; [auto|].
    destruct k; discriminate.
Qed.

Lemma one_request_guard_submit (c : config) :
  loading (ui c) = false ->
  one_request_guard c -> one_request_guard (submit c).
Proof.
  intros L [[G1 G2] | (p & G1 & G2)]; [|congruence].
  destruct (submit_cases c) as [(_ & S1 & _ & S3) | (p & _ & S1 & _ & S3)].
  - left. rewrite S1, S3. auto.
  - right. exists p. rewrite S1, S3, G1. auto.
Qed.

Lemma one_request_guard_step (c : config) (e : event) :
  one_request_guard c -> one_request_guard (step c e).
Proof.
  intros G.
  assert (Frame : (forall k o, e <> Settle k o) -> e <> FormSubmit ->
                  one_request_guard (step c e)).
  { intros Hs Hf. destruct (step_frame c Hs Hf) as (F1 & _ & F3 & _).
    eapply one_request_guard_frame; eassumption. }
  destruct e; try (apply Frame; [intros; discriminate | discriminate]).
  - destruct (step_submit c) as [E | (L & _ & E)]; rewrite E;
      [exact G | apply one_request_guard_submit; assumption].
  - rewrite step_settle. apply one_request_guard_settle. exact G.
Qed.

End Runs.

Lemma reachable_invariant (P : config -> Prop) :
  P boot -> (forall c e, P c -> P (step c e)) ->
  forall c, reachable c -> P c.
Proof.
  intros H0 Hstep c [evs ->].
  apply (@run_invariant P any_event); auto using forallb_any_event.
Qed.

Lemma MainScreen_main_inv (s : state) (m : main_view) :
  MainScreen s = Main m -> m = render_main s.
Proof.
  unfold MainScreen.
  destruct (showSignUp s), (showLogin s), (showProfile s); try discriminate.
  intros H. injection H as <-. reflexivity.
Qed.

(** C5.  In every reachable configuration at most one request is in flight,
    and the loading flag is up exactly when one is.  While it is up the
    submit button is disabled and a submit changes nothing, so no further
    request is issued; and when the request in flight settles, whatever the
    outcome, the flag is down again and nothing is in flight. *)
Theorem C5_single_request_in_flight (c : config) :
  reachable c ->
  (List.length (in_flight c) <= 1)%nat
  /\ (loading (ui c) = true <-> List.length (in_flight c) = 1%nat)
  /\ (loading (ui c) = true ->
      submit_disabled (render_main (ui c)) = true /\ step c FormSubmit = c)
  /\ (forall k o p,
        nth_error (in_flight c) k = Some p ->
        loading (ui (step c (Settle k o))) = false
        /\ in_flight (step c (Settle k o)) = []).
Proof.
  intros R.
  assert (G : one_request_guard c).
  { revert c R. apply reachable_invariant.
    - left. split; reflexivity.
    - intros c e. apply one_request_guard_step. }
  split; [|split; [|split]].
  - destruct G as [[G1 _] | (p & G1 & _)]; rewrite G1; simpl; lia.
  - destruct G as [[G1 G2] | (p & G1 & G2)]; rewrite G1, G2; simpl;
      split; congruence.
  - intros L. split; [simpl; rewrite L; reflexivity|].
    destruct (step_submit c) as [E | (L' & _ & _)]; [exact E | congruence].
  - intros k o p Hk. rewrite step_settle.
    pose proof (one_request_guard_settle k o G) as G'.
    unfold settle in *. rewrite Hk in *. simpl in *.
    split; [reflexivity|].
    destruct G' as [[G1 _] | (q & _ & G2)]; [exact G1 | discriminate].
Qed.

(** A logged-in user submits once; a second submit does nothing, and a
    rejected request lowers the flag. *)
Lemma C5_single_request_in_flight_witness :
  let c := run boot [ClickLogIn; AuthSuccess (lit "Asha");
                     TextareaChange (lit "wire the fee first"); FormSubmit] in
  reachable c /\
  loading (ui c) = true /\
  List.length (in_flight c) = 1%nat /\
  step c FormSubmit = c /\
  loading (ui (step c (Settle 0 (Throw (lit "Failed to fetch"))))) = false.
Proof.
  intros c.
  assert (R : reachable c) by (eexists; reflexivity).
  assert (L : loading (ui c) = true) by reflexivity.
  split; [exact R|]. split; [exact L|].
  destruct (C5_single_request_in_flight R) as (_ & H2 & H3 & H4).
  split; [apply H2; exact L|]. split; [apply H3; exact L|].
  exact (proj1 (H4 0%nat (Throw (lit "Failed to fetch")) _ eq_refl)).
Defined.

(** ** The analysis type *)

Section AnalysisType.

Variable T : jstr -> Prop.

Lemma types_within_step (c : config) (e : event) :
  (is_selector_event e = true -> T (lit "quick") /\ T (lit "detailed")) ->
  types_within T c -> types_within T (step c e).
Proof.
  intros Hsel [Ht Hs]. unfold types_within.
  assert (Frame : (forall k o, e <> Settle k o) -> e <> FormSubmit ->
                  types_within T (step c e)).
  { intros H1 H2. destruct (step_frame c H1 H2) as (_ & F2 & _ & _ & F5).
    unfold types_within. rewrite F2. split; [|exact Hs].
    destruct F5 as [-> | [Hsel' [-> | ->]]]; [exact Ht | |];
      apply Hsel in Hsel'; tauto. }
  destruct e; try (apply Frame; [intros; discriminate | discriminate]).
  - destruct (step_submit c) as [E | (_ & _ & E)]; rewrite E; [tauto|].
    destruct (submit_keeps_selection c) as [-> _]. split; [exact Ht|].
    destruct (submit_cases c) as [(_ & _ & -> & _) | (p & -> & _ & -> & _)];
      [exact Hs|].
    apply Forall_app. split; [exact Hs|]. constructor; [exact Ht|constructor].
  - rewrite step_settle.
    destruct (settle_keeps_selection c k o) as (-> & _ & ->). tauto.
Qed.

End AnalysisType.

(** C6.  Every request sent in any run has [analysis_type] equal to
    ["quick"] or ["detailed"], and equal to ["quick"] when the run contains
    no change of the selector. *)
Theorem C6_analysis_type_is_quick_or_detailed (evs : list event) (p : payload) :
  In p (sent (run boot evs)) ->
  (analysis_type p = lit "quick" \/ analysis_type p = lit "detailed")
  /\ (existsb is_selector_event evs = false -> analysis_type p = lit "quick").
Proof.
  intros Hin. split.
  - assert (W : types_within (fun t => t = lit "quick" \/ t = lit "detailed")
                  (run boot evs)).
    { apply (@run_invariant _ any_event); auto using forallb_any_event.
      - split; [left; reflexivity | constructor].
      - intros c e _. apply types_within_step. auto. }
    destruct W as [_ W]. rewrite Forall_forall in W. exact (W p Hin).
  - intros Hno.
    assert (W : types_within (fun t => t = lit "quick") (run boot evs)).
    { apply (@run_invariant _ (fun e => negb (is_selector_event e))).
      - split; [reflexivity | constructor].
      - intros c e He. apply types_within_step. intros Hs.
        rewrite Hs in He. discriminate.
      - clear Hin. induction evs as [|e evs IH]; [reflexivity|].
        simpl in *. apply orb_false_iff in Hno. destruct Hno as [-> Hno].
        simpl. exact (IH Hno). }
    destruct W as [_ W]. rewrite Forall_forall in W. exact (W p Hin).
Qed.

(** A run that never touches the selector sends [quick]. *)
Lemma C6_analysis_type_is_quick_or_detailed_witness :
  let evs := [ClickSignUp; AuthSuccess (lit "Ravi");
              TextareaChange (lit "http://jobs.example/9"); FormSubmit] in
  let p := {| job_text := lit ""; job_url := lit "http://jobs.example/9";
              company_name := lit ""; analysis_type := lit "quick";
              job_title := lit "" |} in
  In p (sent (run boot evs)) /\
  existsb is_selector_event evs = false /\
  analysis_type p = lit "quick".
Proof.
  intros evs p.
  assert (Hin : In p (sent (run boot evs))) by (left; reflexivity).
  split; [exact Hin|]. split; [reflexivity|].
  exact (proj2 (C6_analysis_type_is_quick_or_detailed evs p Hin) eq_refl).
Defined.

(** ** Before authentication *)

Section LoggedOut.

Lemma logged_out_submit (c : config) :
  userName (ui c) = lit "" -> step c FormSubmit = c.
Proof.
  intros H. destruct (step_submit c) as [E | (_ & U & _)]; [exact E|].
  rewrite H in U. discriminate.
Qed.

Lemma logged_out_idle_step (c : config) (e : event) :
  is_auth_event e = false -> logged_out_idle c -> logged_out_idle (step c e).
Proof.
  intros He (U & F & S).
  assert (Frame : (forall k o, e <> Settle k o) -> e <> FormSubmit ->
                  logged_out_idle (step c e)).
  { intros H1 H2. destruct (step_frame c H1 H2) as (F1 & F2 & _ & F4 & _).
    unfold logged_out_idle. rewrite F1, F2, (F4 He). auto. }
  destruct e; try (apply Frame; [intros; discriminate | discriminate]).
  - rewrite logged_out_submit by exact U. unfold logged_out_idle. auto.
  - rewrite step_settle. unfold settle. rewrite F.
    destruct k; simpl; unfold logged_out_idle; auto.
Qed.

End LoggedOut.

(** C9.  With no user name set, the landing screen renders the textarea,
    both radio buttons and the submit button disabled and shows the notice
    "Please log in to analyze job postings."; a submit, a change of the
    text or a change of the selector then leaves the component as it is; and
    a run in which the auth-success callback never fires sends no request. *)
Theorem C9_form_is_closed_until_login (s : state) :
  userName s = lit "" ->
  (forall m, MainScreen s = Main m ->
     textarea_disabled m = true /\ quick_disabled m = true
     /\ detailed_disabled m = true /\ submit_disabled m = true
     /\ login_notice m = Some login_notice_text)
  /\ (forall c, ui c = s ->
     step c FormSubmit = c /\ step c QuickChange = c
     /\ step c DetailedChange = c
     /\ forall value, step c (TextareaChange value) = c)
  /\ (forall evs, existsb is_auth_event evs = false ->
     userName (ui (run boot evs)) = lit "" /\ sent (run boot evs) = []).
Proof.
  intros U. split; [|split].
  - intros m Hm. apply MainScreen_main_inv in Hm. subst m. simpl.
    rewrite U. simpl. rewrite orb_true_r. repeat split.
  - intros c <-. split; [apply logged_out_submit; exact U|].
    unfold step.
    destruct (MainScreen (ui c)) as [| | n | m] eqn:Hm; try (repeat split; fail).
    apply MainScreen_main_inv in Hm. subst m. simpl. rewrite U. simpl.
    repeat split.
  - intros evs Hno.
    assert (W : logged_out_idle (run boot evs)).
    { apply (@run_invariant _ (fun e => negb (is_auth_event e))).
      - repeat split.
      - intros c e He. apply logged_out_idle_step.
        destruct (is_auth_event e); [discriminate | reflexivity].
      - induction evs as [|e evs IH]; [reflexivity|].
        simpl in *. apply orb_false_iff in Hno. destruct Hno as [-> Hno].
        simpl. exact (IH Hno). }
    destruct W as (W1 & _ & W3). auto.
Qed.

(** Without a user name the form is disabled and nothing is sent. *)
Lemma C9_form_is_closed_until_login_witness :
  let s := setInput (lit "https://jobs.example/1") initial in
  let c := {| ui := s; in_flight := []; sent := [] |} in
  userName s = lit "" /\
  submit_disabled (render_main s) = true /\
  textarea_disabled (render_main s) = true /\
  login_notice (render_main s) = Some login_notice_text /\
  step c FormSubmit = c /\
  sent (run boot [TextareaChange (lit "https://jobs.example/1"); DetailedChange;
                  FormSubmit; ClickLogIn; LoginBack; FormSubmit]) = [].
Proof.
  intros s c.
  assert (U : userName s = lit "") by reflexivity.
  destruct (C9_form_is_closed_until_login s U) as (H1 & H2 & H3).
  destruct (H1 (render_main s) eq_refl) as (A & _ & _ & B & N).
  split; [exact U|]. split; [exact B|]. split; [exact A|]. split; [exact N|].
  split; [exact (proj1 (H2 c eq_refl))|].
  exact (proj2 (H3 [TextareaChange (lit "https://jobs.example/1");
                     DetailedChange; FormSubmit; ClickLogIn; LoginBack;
                     FormSubmit] eq_refl)).
Defined.

(** * Further properties of the landing screen *)

(** ** Navigation *)

Section Navigation.

Lemma step_ui_cases (c : config) (e : event) :
  (forall k o, e <> Settle k o) -> e <> FormSubmit ->
  step c e = c \/ exists s', step c e = with_ui c s'.
Proof.
  intros Hs Hf. unfold step.
  destruct e; try congruence; try (exfalso; eapply Hs; reflexivity);
    destruct (MainScreen (ui c)) as [| | n | m]; auto;
    try destruct (welcome m); try destruct (textarea_disabled m);
    try destruct (quick_disabled m); try destruct (detailed_disabled m);
    try destruct (JsString.truthy (userName (ui c)));
    eauto.
Qed.

Lemma settle_keeps_screens (c : config) (k : nat) (o : fetch_outcome) :
  showSignUp (ui (settle k o c)) = showSignUp (ui c)
  /\ showLogin (ui (settle k o c)) = showLogin (ui c)
  /\ showProfile (ui (settle k o c)) = showProfile (ui c)
  /\ input (ui (settle k o c)) = input (ui c).
Proof.
  unfold settle. destruct (nth_error (in_flight c) k); [|auto].
  unfold handleAnalyze_settle. destruct (try_block o); auto.
Qed.

Lemma submit_keeps_screens (c : config) :
  showSignUp (ui (submit c)) = showSignUp (ui c)
  /\ showLogin (ui (submit c)) = showLogin (ui c)
  /\ showProfile (ui (submit c)) = showProfile (ui c)
  /\ input (ui (submit c)) = input (ui c).
Proof.
  unfold submit, handleAnalyze.
  destruct (negb (JsString.truthy (trim (input (ui c))))); auto.
Qed.

Lemma screens_consistent_ext (s s' : state) :
  showSignUp s' = showSignUp s -> showLogin s' = showLogin s ->
  showProfile s' = showProfile s -> userName s' = userName s ->
  screens_consistent s -> screens_consistent s'.
Proof. unfold screens_consistent. intros -> -> -> ->. tauto. Qed.

Lemma screens_consistent_step (c : config) (e : event) :
  screens_consistent (ui c) -> screens_consistent (ui (step c e)).
Proof.
  intros H.
  destruct e;
    try (destruct c as [[su lg un pr inp ty res ld] fl se];
         unfold step, MainScreen, screens_consistent in *; simpl in *;
         destruct su, lg, pr; simpl in *; try tauto;
         destruct un; simpl in *; try tauto; try discriminate; fail).
  - destruct (step_submit c) as [-> | (_ & _ & ->)]; [exact H|].
    destruct (submit_keeps_screens c) as (E1 & E2 & E3 & _).
    destruct (submit_keeps_selection c) as [_ E4].
    exact (@screens_consistent_ext _ _ E1 E2 E3 E4 H).
  - rewrite step_settle.
    destruct (settle_keeps_screens c k o) as (E1 & E2 & E3 & _).
    destruct (settle_keeps_selection c k o) as (_ & E4 & _).
    exact (@screens_consistent_ext _ _ E1 E2 E3 E4 H).
Qed.

End Navigation.

Section LoginState.

Lemma userName_kept_once_set (c : config) (e : event) :
  screens_consistent (ui c) -> JsString.truthy (userName (ui c)) = true ->
  userName (ui (step c e)) = userName (ui c).
Proof.
  intros H T.
  destruct (is_auth_event e) eqn:He.
  - destruct e; try discriminate He.
    destruct c as [[su lg un pr inp ty res ld] fl se].
    unfold step, MainScreen, screens_consistent in *. simpl in *.
    destruct su, lg, pr; simpl in *; try tauto; subst un; discriminate.
  - destruct e; try discriminate He;
      try (apply step_frame; [intros; discriminate | discriminate | exact He]).
    + destruct (step_submit c) as [-> | (_ & _ & ->)]; [reflexivity|].
      apply submit_keeps_selection.
    + rewrite step_settle. apply settle_keeps_selection.
Qed.

Lemma truthy_or_empty (s : jstr) : JsString.truthy s = true \/ s = lit "".
Proof. destruct s; [right | left]; reflexivity. Qed.

Lemma navigation_invariant_step (c : config) (e : event) :
  navigation_invariant c -> navigation_invariant (step c e).
Proof.
  intros (S & G & L). split; [|split].
  - apply screens_consistent_step. exact S.
  - apply one_request_guard_step. exact G.
  - intros U'. destruct (truthy_or_empty (userName (ui c))) as [T | U].
    + rewrite (@userName_kept_once_set c e S T) in U'. rewrite U' in T.
      discriminate.
    + destruct (L U) as [F N].
      destruct (is_auth_event e) eqn:He.
      * destruct e; try discriminate He.
        destruct (@step_frame c (AuthSuccess name)) as (F1 & F2 & _);
          [intros; discriminate | discriminate |].
        rewrite F1, F2. auto.
      * assert (I : logged_out_idle (step c e)).
        { apply logged_out_idle_step; [exact He|]. repeat split; assumption. }
        destruct I as (_ & I1 & I2). auto.
Qed.

Lemma navigation_invariant_reachable (c : config) :
  reachable c -> navigation_invariant c.
Proof.
  revert c. apply reachable_invariant.
  - split; [exact I|]. split; [left; auto|]. intros _. auto.
  - intros c e. apply navigation_invariant_step.
Qed.

End LoginState.

(** X1.  In every reachable configuration at most one of the three screen
    flags is set; the sign-up and the login screen are open only while no
    user name is set, and the profile screen only while one is. *)
Theorem screens_exclude_each_other (c : config) :
  reachable c ->
  (flags_set (ui c) <= 1)%nat
  /\ (showSignUp (ui c) = true \/ showLogin (ui c) = true ->
      userName (ui c) = lit "")
  /\ (showProfile (ui c) = true -> JsString.truthy (userName (ui c)) = true).
Proof.
  intros R. destruct (@navigation_invariant_reachable c R) as (S & _).
  unfold screens_consistent in S. unfold flags_set.
  destruct (showSignUp (ui c)), (showLogin (ui c)), (showProfile (ui c));
    simpl; try contradiction; repeat split; auto;
    intros H; try discriminate H; destruct H; discriminate.
Qed.

(** After logging in and opening the profile only the profile flag is set. *)
Lemma screens_exclude_each_other_witness :
  let c := run boot [ClickSignUp; AuthSuccess (lit "Meera"); ClickWelcome] in
  reachable c /\ flags_set (ui c) = 1%nat /\ showProfile (ui c) = true /\
  JsString.truthy (userName (ui c)) = true.
Proof.
  intros c.
  assert (R : reachable c) by (eexists; reflexivity).
  split; [exact R|]. split; [reflexivity|]. split; [reflexivity|].
  exact (proj2 (proj2 (@screens_exclude_each_other c R)) eq_refl).
Defined.

(** X2.  Once a user name is set, no sequence of events changes it: there is
    no way to log out or to switch user, the profile's back and logout
    included. *)
Theorem user_name_is_never_cleared (c : config) (evs : list event) :
  reachable c -> JsString.truthy (userName (ui c)) = true ->
  userName (ui (run c evs)) = userName (ui c).
Proof.
  intros R T. induction evs as [|e evs IH] using rev_ind; [reflexivity|].
  rewrite run_snoc.
  assert (R' : reachable (run c evs)).
  { destruct R as [pre ->]. exists (pre ++ evs). unfold run.
    rewrite fold_left_app. reflexivity. }
  destruct (@navigation_invariant_reachable _ R') as (S & _).
  rewrite userName_kept_once_set; [exact IH | exact S |].
  rewrite IH. exact T.
Qed.

(** A logged-in user opens the profile, leaves it, and visits the auth
    callbacks again: the name stays. *)
Lemma user_name_is_never_cleared_witness :
  let c := run boot [ClickLogIn; AuthSuccess (lit "Meera")] in
  reachable c /\ JsString.truthy (userName (ui c)) = true /\
  userName (ui (run c [ClickWelcome; ProfileBack; ClickSignUp;
                       AuthSuccess (lit ""); ClickLogIn]))
    = lit "Meera".
Proof.
  intros c.
  assert (R : reachable c) by (eexists; reflexivity).
  assert (T : JsString.truthy (userName (ui c)) = true) by reflexivity.
  split; [exact R|]. split; [exact T|].
  exact (@user_name_is_never_cleared c
           [ClickWelcome; ProfileBack; ClickSignUp; AuthSuccess (lit "");
            ClickLogIn] R T).
Defined.

(** X3.  From the landing screen, opening a screen and going back is a round
    trip: sign-up and login for a logged-out visitor, the profile for a
    logged-in one.  The whole configuration, typed text and shown result
    included, is as before. *)
Theorem open_then_back_changes_nothing (c : config) (m : main_view) :
  MainScreen (ui c) = Main m ->
  (userName (ui c) = lit "" ->
     step (step c ClickSignUp) SignUpBack = c
     /\ step (step c ClickLogIn) LoginBack = c)
  /\ (JsString.truthy (userName (ui c)) = true ->
     step (step c ClickWelcome) ProfileBack = c).
Proof.
  destruct c as [[su lg un pr inp ty res ld] fl se].
  unfold step, MainScreen. simpl.
  destruct su, lg, pr; try discriminate. intros _. split.
  - intros ->. simpl. split; reflexivity.
  - intros T. destruct un; [discriminate|]. reflexivity.
Qed.

(** A visitor with text in the box opens the login screen and comes back. *)
Lemma open_then_back_changes_nothing_witness :
  let c := {| ui := setResult (VStr (lit "kept")) initial;
              in_flight := []; sent := [] |} in
  MainScreen (ui c) = Main (render_main (ui c)) /\
  userName (ui c) = lit "" /\
  step (step c ClickLogIn) LoginBack = c.
Proof.
  intros c.
  assert (H : MainScreen (ui c) = Main (render_main (ui c))) by reflexivity.
  assert (U : userName (ui c) = lit "") by reflexivity.
  split; [exact H|]. split; [exact U|].
  exact (proj2 (proj1 (@open_then_back_changes_nothing c _ H) U)).
Defined.

(** X4.  When the auth-success callback fires on the sign-up or the login
    screen of a reachable configuration, the landing screen comes back;
    with a non-empty name it greets the user, the textarea, both radio
    buttons and the submit button are enabled and the login notice is gone;
    with an empty name the form stays disabled. *)
Theorem auth_success_opens_the_form (c : config) (name : jstr) :
  reachable c ->
  MainScreen (ui c) = SignUpPage \/ MainScreen (ui c) = LoginScreen ->
  exists m,
    MainScreen (ui (step c (AuthSuccess name))) = Main m
    /\ welcome m = (if JsString.truthy name then Some name else None)
    /\ textarea_disabled m = negb (JsString.truthy name)
    /\ quick_disabled m = negb (JsString.truthy name)
    /\ detailed_disabled m = negb (JsString.truthy name)
    /\ submit_disabled m = negb (JsString.truthy name)
    /\ login_notice m
       = (if JsString.truthy name then None else Some login_notice_text).
Proof.
  intros R V.
  destruct (@navigation_invariant_reachable c R) as (S & G & L).
  assert (U : userName (ui c) = lit "" /\ showProfile (ui c) = false).
  { unfold screens_consistent, MainScreen in *.
    destruct (showSignUp (ui c)), (showLogin (ui c)), (showProfile (ui c));
      try contradiction; auto; destruct V; discriminate. }
  destruct U as [U P].
  assert (Ld : loading (ui c) = false).
  { destruct (L U) as [F _].
    destruct G as [[_ G] | (p & G & _)]; [exact G | congruence]. }
  exists (render_main (handleAuthSuccess name (ui c))).
  assert (E : step c (AuthSuccess name)
              = with_ui c (handleAuthSuccess name (ui c))).
  { unfold step. destruct V as [-> | ->]; reflexivity. }
  rewrite E. unfold MainScreen, handleAuthSuccess. simpl.
  rewrite P, Ld. simpl. destruct (JsString.truthy name); repeat split.
Qed.

(** Logging in from the login screen enables the form. *)
Lemma auth_success_opens_the_form_witness :
  let c := run boot [ClickLogIn] in
  reachable c /\
  (MainScreen (ui c) = SignUpPage \/ MainScreen (ui c) = LoginScreen) /\
  exists m,
    MainScreen (ui (step c (AuthSuccess (lit "Meera")))) = Main m
    /\ welcome m = Some (lit "Meera") /\ submit_disabled m = false.
Proof.
  intros c.
  assert (R : reachable c) by (eexists; reflexivity).
  assert (V : MainScreen (ui c) = SignUpPage \/ MainScreen (ui c) = LoginScreen)
    by (right; reflexivity).
  split; [exact R|]. split; [exact V|].
  destruct (@auth_success_opens_the_form c (lit "Meera") R V)
    as (m & H1 & H2 & _ & _ & _ & H6 & _).
  exists m. split; [exact H1|]. split; [exact H2 | exact H6].
Defined.

(** X5.  Nothing but typing changes the text of the textarea: over any run
    without a change event of the textarea, submits, responses, logins and
    navigation included, the text stays what it was. *)
Theorem only_typing_changes_the_text (c : config) (evs : list event) :
  existsb is_typing_event evs = false ->
  input (ui (run c evs)) = input (ui c).
Proof.
  revert c. induction evs as [|e evs IH]; intros c H; [reflexivity|].
  simpl in H. apply orb_false_iff in H. destruct H as [He H].
  change (run c (e :: evs)) with (run (step c e) evs).
  rewrite (IH _ H). clear IH H.
  destruct e; try discriminate He;
    try (destruct c as [[su lg un pr inp ty res ld] fl se];
         unfold step, MainScreen; simpl;
         destruct su, lg, pr; simpl; try reflexivity;
         destruct un; reflexivity).
  - destruct (step_submit c) as [-> | (_ & _ & ->)]; [reflexivity|].
    apply submit_keeps_screens.
  - rewrite step_settle. apply settle_keeps_screens.
Qed.

(** The text survives a submit, its rejection and a visit to the profile. *)
Lemma only_typing_changes_the_text_witness :
  let c := run boot [ClickLogIn; AuthSuccess (lit "Meera");
                     TextareaChange (lit "work from home, pay to start")] in
  let evs := [FormSubmit; Settle 0 (Throw (lit "Failed to fetch"));
              ClickWelcome; ProfileBack] in
  existsb is_typing_event evs = false /\
  input (ui (run c evs)) = lit "work from home, pay to start".
Proof.
  intros c evs.
  assert (H : existsb is_typing_event evs = false) by reflexivity.
  split; [exact H|].
  exact (@only_typing_changes_the_text c evs H).
Defined.

(** X6.  A delivered submit of a text that is not blank discards whatever
    result was shown: the stored result is cleared, no panel is rendered,
    the loading flag is up, the button reads "Analyzing..." and is disabled,
    and exactly the request built from the text and the selected type is
    added to the log. *)
Theorem submit_clears_the_shown_result (c : config) (m : main_view) :
  MainScreen (ui c) = Main m -> submit_disabled m = false ->
  trim (input (ui c)) <> [] ->
  result (ui (step c FormSubmit)) = VNull
  /\ MainScreen (ui (step c FormSubmit))
     = Main (render_main (ui (step c FormSubmit)))
  /\ result_panel (render_main (ui (step c FormSubmit))) = NoPanel VNull
  /\ submit_label (render_main (ui (step c FormSubmit))) = lit "Analyzing..."
  /\ submit_disabled (render_main (ui (step c FormSubmit))) = true
  /\ sent (step c FormSubmit)
     = sent c ++ [make_payload (input (ui c)) (analysisType (ui c))].
Proof.
  intros V D T.
  assert (E : step c FormSubmit = submit c).
  { unfold step. rewrite V, D. reflexivity. }
  rewrite E. unfold submit. rewrite (handleAnalyze_request _ T). simpl.
  unfold MainScreen in *. simpl.
  destruct (showSignUp (ui c)), (showLogin (ui c)), (showProfile (ui c));
    try discriminate.
  repeat split.
Qed.

(** An error panel from an earlier attempt disappears on the next submit. *)
Lemma submit_clears_the_shown_result_witness :
  let s := setResult (error_object (VStr (lit "Failed to fetch")))
             (setInput (lit "data entry job") (setUserName (lit "Meera") initial)) in
  let c := {| ui := s; in_flight := []; sent := [] |} in
  MainScreen (ui c) = Main (render_main s) /\
  submit_disabled (render_main s) = false /\
  trim (input (ui c)) <> [] /\
  result_panel (render_main s) = ErrorPanel (VStr (lit "Failed to fetch")) /\
  result_panel (render_main (ui (step c FormSubmit))) = NoPanel VNull.
Proof.
  intros s c.
  assert (V : MainScreen (ui c) = Main (render_main s)) by reflexivity.
  assert (D : submit_disabled (render_main s) = false) by reflexivity.
  assert (T : trim (input (ui c)) <> []) by (vm_compute; discriminate).
  split; [exact V|]. split; [exact D|]. split; [exact T|].
  split; [reflexivity|].
  exact (proj1 (proj2 (proj2 (@submit_clears_the_shown_result c _ V D T)))).
Defined.

(** ** What is stored when the request settles *)

(** X7.  Which message ends up in the stored result.  A response with a
    status outside 2xx and a parsed body other than [null] stores the body's
    [error] when that is truthy and the fixed fallback message otherwise; a
    rejected [fetch] and a rejected [json()] store the message of the error
    they raised; a body that is [null] stores the message of the TypeError
    of reading its [error].  In every case the loading flag ends down. *)
Theorem stored_error_message (s : state) :
  (forall resp data,
     json resp = Return data -> ok resp = false ->
     data <> VNull -> data <> VUndefined ->
     result (handleAnalyze_settle (Return resp) s)
       = error_object (if truthy (get_prop data (lit "error"))
                       then get_prop data (lit "error")
                       else VStr fallback_message))
  /\ (forall message,
     result (handleAnalyze_settle (Throw message) s)
       = error_object (VStr message))
  /\ (forall resp message,
     json resp = Throw message ->
     result (handleAnalyze_settle (Return resp) s)
       = error_object (VStr message))
  /\ (forall resp,
     json resp = Return VNull ->
     result (handleAnalyze_settle (Return resp) s)
       = error_object (VStr (type_error_message VNull (lit "error"))))
  /\ (forall o, loading (handleAnalyze_settle o s) = false).
Proof.
  split; [|split; [|split; [|split]]].
  - intros resp data Hj Hok Hn Hu. rewrite result_settle.
    destruct (member_cases data (lit "error")) as [[_ [E | E]] | [Hm _]];
      try congruence.
    rewrite (@try_block_member_returns resp data Hj _ Hm), Hok. reflexivity.
  - intros message. reflexivity.
  - intros resp message Hj. rewrite result_settle.
    rewrite (@try_block_throw_json resp message Hj). reflexivity.
  - intros resp Hj. rewrite result_settle.
    rewrite (@try_block_member_throws resp VNull Hj _ eq_refl). reflexivity.
  - intros o. reflexivity.
Qed.

(** A 500 whose body has no [error] shows the fallback message; a 404 whose
    body has one shows that. *)
Lemma stored_error_message_witness :
  let plain := {| status := 500; json := Return (VObj []) |} in
  let told := {| status := 404;
                 json := Return (VObj [(lit "error", VStr (lit "no such job"))]) |} in
  ok plain = false /\ ok told = false /\
  result (handleAnalyze_settle (Return plain) initial)
    = error_object (VStr fallback_message) /\
  result (handleAnalyze_settle (Return told) initial)
    = error_object (VStr (lit "no such job")).
Proof.
  intros plain told.
  destruct (stored_error_message initial) as (H & _).
  split; [reflexivity|]. split; [reflexivity|]. split.
  - apply (H plain (VObj []) eq_refl eq_refl); discriminate.
  - apply (H told (VObj [(lit "error", VStr (lit "no such job"))])
             eq_refl eq_refl); discriminate.
Defined.

(** X8.  A 2xx response whose body is a JSON boolean, number or string is
    not an error: the body is stored as it is.  When the body is truthy the
    raw panel shows it.  When it is falsy no panel is built and the body
    itself is the child handed to React: that is [false] or the empty
    string, for which nothing appears on screen, or a zero, which is
    printed as the text [0] (or NaN, which JSON never yields). *)
Theorem primitive_body_is_shown_raw (resp : response) (data : jsval) (s : state) :
  ok resp = true -> json resp = Return data -> is_primitive data = true ->
  result (handleAnalyze_settle (Return resp) s) = data
  /\ render_panel (result (handleAnalyze_settle (Return resp) s))
     = (if truthy data then RawPanel data else NoPanel data)
  /\ (truthy data = false ->
      (data = VBool false /\ falsy_child_text data = lit "")
      \/ (data = VStr (lit "") /\ falsy_child_text data = lit "")
      \/ ((exists sign, data = VNum (S754_zero sign))
          /\ falsy_child_text data = lit "0")
      \/ (data = VNum S754_nan /\ falsy_child_text data = lit "NaN")).
Proof.
  intros Hok Hj Hp. rewrite result_settle.
  assert (Hm : member data (lit "error") = Return VUndefined)
    by (destruct data; try discriminate Hp; reflexivity).
  rewrite (@try_block_member_returns resp data Hj _ Hm), Hok. simpl.
  split; [reflexivity|].
  assert (G : get_prop data (lit "error") = VUndefined)
    by (destruct data; try discriminate Hp; reflexivity).
  assert (Ty : typeof_object data = false)
    by (destruct data; try discriminate Hp; reflexivity).
  split.
  - unfold render_panel, js_and. rewrite G, Ty.
    destruct (truthy data) eqn:T; simpl; [reflexivity|].
    rewrite T. reflexivity.
  - intros T. destruct data as [| | b | x | t | |]; try discriminate Hp.
    + left. destruct b; [discriminate T|]. split; reflexivity.
    + destruct x as [sign | sign | | sign m e]; try discriminate T.
      * right. right. left. split; [exists sign|]; reflexivity.
      * right. right. right. split; reflexivity.
    + right. left. destruct t; [|discriminate T]. split; reflexivity.
Qed.

(** The body [0] builds no panel and is printed as [0], the body ["ok"] is
    shown raw. *)
Lemma primitive_body_is_shown_raw_witness :
  let zero := {| status := 200; json := Return (VNum (num_of_Z 0)) |} in
  let word := {| status := 201; json := Return (VStr (lit "ok")) |} in
  ok zero = true /\ ok word = true /\
  render_panel (result (handleAnalyze_settle (Return zero) initial))
    = NoPanel (VNum (num_of_Z 0)) /\
  falsy_child_text (VNum (num_of_Z 0)) = lit "0" /\
  render_panel (result (handleAnalyze_settle (Return word) initial))
    = RawPanel (VStr (lit "ok")).
Proof.
  intros zero word.
  destruct (@primitive_body_is_shown_raw zero (VNum (num_of_Z 0)) initial
              eq_refl eq_refl eq_refl) as (_ & Z1 & Z2).
  split; [reflexivity|]. split; [reflexivity|]. split; [exact Z1|]. split.
  - destruct (Z2 eq_refl) as [[E _] | [[E _] | [[_ T] | [E _]]]];
      [discriminate E | discriminate E | exact T | discriminate E].
  - exact (proj1 (proj2 (@primitive_body_is_shown_raw word (VStr (lit "ok"))
                           initial eq_refl eq_refl eq_refl))).
Defined.

(** ** The shape of every request *)

Section Trimmed.

Lemma trimStart_suffix (s : jstr) : exists pre, s = pre ++ trimStart s.
Proof.
  induction s as [|c s [pre IH]]; [exists []; reflexivity|].
  simpl. destruct (is_white_space c).
  - exists (c :: pre). simpl. f_equal. exact IH.
  - exists []. reflexivity.
Qed.

Lemma trimStart_fixed (s : jstr) :
  (forall c r, s = c :: r -> is_white_space c = false) -> trimStart s = s.
Proof.
  destruct s as [|c r]; [reflexivity|]. intros H. simpl.
  rewrite (H c r eq_refl). reflexivity.
Qed.

Lemma trimStart_head_clean (s : jstr) :
  forall c r, trimStart s = c :: r -> is_white_space c = false.
Proof. intros c r H. exact (trimStart_head s H). Qed.

Lemma trim_is_trimmed (s : jstr) : trimmed (trim s).
Proof.
  assert (Head : forall c r, trim s = c :: r -> is_white_space c = false).
  { unfold trim, trimEnd. intros c r H.
    destruct (trimStart_suffix (rev (trimStart s))) as [pre E].
    apply (f_equal (@rev _)) in E. rewrite rev_involutive, rev_app_distr in E.
    rewrite H in E. simpl in E. exact (trimStart_head s E). }
  assert (Last : forall c r, trim s = r ++ [c] -> is_white_space c = false).
  { unfold trim, trimEnd. intros c r H.
    apply (f_equal (@rev _)) in H.
    rewrite rev_involutive, rev_app_distr in H. simpl in H.
    exact (trimStart_head _ H). }
  split; [|split; assumption].
  unfold trim at 1. rewrite (trimStart_fixed Head).
  unfold trim, trimEnd. rewrite rev_involutive. f_equal.
  apply trimStart_fixed. apply trimStart_head_clean.
Qed.

Lemma trimmed_nil : trimmed [].
Proof.
  split; [reflexivity|]. split; intros c r H; [discriminate|].
  destruct r; discriminate.
Qed.

Lemma make_payload_well_formed (i t : jstr) :
  trim i <> [] -> well_formed_request (make_payload i t).
Proof.
  intros H. unfold well_formed_request, make_payload, exactly_one_nonempty.
  simpl. apply truthy_iff_nonempty in H.
  destruct (UrlPattern.test (trim i)) eqn:E; simpl; rewrite H;
    repeat split; try apply trim_is_trimmed; try apply trimmed_nil;
    try congruence; try (intros c r Hc; try destruct r; discriminate);
    intros N; exfalso; apply N; reflexivity.
Qed.

Lemma submit_sends (c : config) :
  (trim (input (ui c)) = [] /\ sent (submit c) = sent c)
  \/ (trim (input (ui c)) <> []
      /\ sent (submit c)
         = sent c ++ [make_payload (input (ui c)) (analysisType (ui c))]).
Proof.
  unfold submit. destruct (trim (input (ui c))) as [|x t] eqn:Ht.
  - left. apply trim_nil_iff in Ht.
    rewrite handleAnalyze_validation by exact Ht. simpl.
    rewrite app_nil_r. auto.
  - right. split; [discriminate|].
    rewrite handleAnalyze_request by (rewrite Ht; discriminate).
    reflexivity.
Qed.

End Trimmed.

(** X9.  Trimming is idempotent, and a trimmed string that is not empty
    neither starts nor ends with white space; so in every request the
    handler builds, [job_text] and [job_url] carry no white space at either
    end. *)
Theorem request_fields_are_trimmed (s : state) (p : payload) :
  snd (handleAnalyze s) = Some p ->
  trimmed (job_text p) /\ trimmed (job_url p)
  /\ forall t, trim (trim t) = trim t.
Proof.
  intros H. split; [|split].
  - unfold handleAnalyze in H.
    destruct (negb (JsString.truthy (trim (input s)))); [discriminate|].
    simpl in H. injection H as <-. simpl.
    destruct (UrlPattern.test (trim (input s)));
      [apply trimmed_nil | apply trim_is_trimmed].
  - unfold handleAnalyze in H.
    destruct (negb (JsString.truthy (trim (input s)))); [discriminate|].
    simpl in H. injection H as <-. simpl.
    destruct (UrlPattern.test (trim (input s)));
      [apply trim_is_trimmed | apply trimmed_nil].
  - intros t. apply trim_is_trimmed.
Qed.

(** Tabs, a no-break space and a line feed around the text are dropped. *)
Lemma request_fields_are_trimmed_witness :
  let s := setInput ([9; 160] ++ lit "pay a fee to start" ++ [10; 32]) initial in
  let p := make_payload (input s) (analysisType s) in
  snd (handleAnalyze s) = Some p /\
  job_text p = lit "pay a fee to start" /\
  trim (job_text p) = job_text p.
Proof.
  intros s p.
  assert (H : snd (handleAnalyze s) = Some p) by reflexivity.
  split; [exact H|]. split; [reflexivity|].
  exact (proj1 (proj1 (@request_fields_are_trimmed s p H))).
Defined.

(** X10.  Every request sent in any run is well formed: [company_name] and
    [job_title] are empty, exactly one of [job_text] and [job_url] is
    non-empty, both are trimmed, a non-empty [job_url] passes the URL test
    and a non-empty [job_text] fails it. *)
Theorem every_sent_request_is_well_formed (evs : list event) (p : payload) :
  In p (sent (run boot evs)) -> well_formed_request p.
Proof.
  intros Hin.
  assert (W : Forall well_formed_request (sent (run boot evs))).
  { apply (@run_invariant (fun c => Forall well_formed_request (sent c))
                          any_event);
      [constructor | | apply forallb_any_event].
    - intros c e _ F.
      assert (Frame : (forall k o, e <> Settle k o) -> e <> FormSubmit ->
                      Forall well_formed_request (sent (step c e))).
      { intros H1 H2. destruct (step_frame c H1 H2) as (_ & -> & _).
        exact F. }
      destruct e; try (apply Frame; [intros; discriminate | discriminate]).
      + destruct (step_submit c) as [-> | (_ & _ & ->)]; [exact F|].
        destruct (submit_sends c) as [[_ ->] | [T ->]]; [exact F|].
        apply Forall_app. split; [exact F|]. constructor; [|constructor].
        apply make_payload_well_formed. exact T.
      + rewrite step_settle.
        destruct (settle_keeps_selection c k o) as (_ & _ & ->). exact F. }
  rewrite Forall_forall in W. exact (W p Hin).
Qed.

(** The one request of a short session. *)
Lemma every_sent_request_is_well_formed_witness :
  let evs := [ClickLogIn; AuthSuccess (lit "Meera");
              TextareaChange (lit "  HTTP://jobs.example/77  "); FormSubmit] in
  let p := {| job_text := lit ""; job_url := lit "HTTP://jobs.example/77";
              company_name := lit ""; analysis_type := lit "quick";
              job_title := lit "" |} in
  In p (sent (run boot evs)) /\ well_formed_request p.
Proof.
  intros evs p.
  assert (H : In p (sent (run boot evs))) by (left; reflexivity).
  split; [exact H|].
  exact (@every_sent_request_is_well_formed evs p H).
Defined.


(** ** The URL test, spelled out *)

Section PatternSpelledOut.
Import UrlPattern.

Lemma matches_all_canon (pat pre : jstr) :
  matches_all pat pre <-> map Canonicalize pat = map Canonicalize pre.
Proof.
  split.
  - induction 1 as [|p c pat pre H _ IH]; [reflexivity|].
    simpl. apply N.eqb_eq in H. rewrite H, IH. reflexivity.
  - revert pre. induction pat as [|p pat IH]; intros [|c pre] H;
      try discriminate; [constructor|].
    simpl in H. injection H as H1 H2. constructor; [|apply IH; exact H2].
    unfold char_matches. apply N.eqb_eq. exact H1.
Qed.

Lemma test_of_http (pre4 pre3 r : jstr) :
  matches_all (lit "http") pre4 -> matches_all (lit "://") pre3 ->
  test (pre4 ++ pre3 ++ r) = true.
Proof.
  intros H4 H3. unfold test. rewrite (match_seq_app _ H4).
  unfold matches_seq at 2. rewrite (match_seq_app _ H3). apply orb_true_r.
Qed.

Lemma test_of_https (pre4 pre1 pre3 r : jstr) :
  matches_all (lit "http") pre4 -> matches_all (lit "s") pre1 ->
  matches_all (lit "://") pre3 ->
  test (pre4 ++ pre1 ++ pre3 ++ r) = true.
Proof.
  intros H4 H1 H3. unfold test. rewrite (match_seq_app _ H4).
  rewrite (match_seq_app _ H1). unfold matches_seq at 1.
  rewrite (match_seq_app _ H3). reflexivity.
Qed.

End PatternSpelledOut.

(** X11.  The URL test accepts exactly the strings that start with
    [http://] or [https://] written in any mix of upper and lower case:
    a string passes if and only if it has a prefix whose upper-cased code
    units spell [HTTP://] or [HTTPS://]. *)
Theorem url_test_accepts_exactly_the_prefixes (s : jstr) :
  UrlPattern.test s = true <->
  exists pre r,
    s = pre ++ r
    /\ (map UrlPattern.Canonicalize pre = lit "HTTP://"
        \/ map UrlPattern.Canonicalize pre = lit "HTTPS://").
Proof.
  split.
  - unfold UrlPattern.test.
    destruct (UrlPattern.match_seq (lit "http") s) as [rest|] eqn:H4;
      [|discriminate].
    apply match_seq_inv in H4. destruct H4 as (pre4 & -> & H4).
    apply matches_all_canon in H4.
    intros H. apply orb_true_iff in H. destruct H as [H | H].
    + destruct (UrlPattern.match_seq (lit "s") rest) as [rest'|] eqn:H1;
        [|discriminate].
      apply match_seq_inv in H1. destruct H1 as (pre1 & -> & H1).
      unfold UrlPattern.matches_seq in H.
      destruct (UrlPattern.match_seq (lit "://") rest') as [r|] eqn:H3;
        [|discriminate].
      apply match_seq_inv in H3. destruct H3 as (pre3 & -> & H3).
      apply matches_all_canon in H1. apply matches_all_canon in H3.
      exists (pre4 ++ pre1 ++ pre3), r. split; [rewrite <- !app_assoc; reflexivity|].
      right. rewrite !map_app, <- H4, <- H1, <- H3. reflexivity.
    + unfold UrlPattern.matches_seq in H.
      destruct (UrlPattern.match_seq (lit "://") rest) as [r|] eqn:H3;
        [|discriminate].
      apply match_seq_inv in H3. destruct H3 as (pre3 & -> & H3).
      apply matches_all_canon in H3.
      exists (pre4 ++ pre3), r. split; [rewrite <- app_assoc; reflexivity|].
      left. rewrite map_app, <- H4, <- H3. reflexivity.
  - intros (pre & r & -> & [H | H]).
    + assert (M : matches_all (lit "http" ++ lit "://") pre)
        by (apply matches_all_canon; rewrite H; reflexivity).
      apply Forall2_app_inv_l in M.
      destruct M as (pre4 & pre3 & H4 & H3 & ->).
      rewrite <- app_assoc. apply test_of_http; assumption.
    + assert (M : matches_all (lit "http" ++ lit "s" ++ lit "://") pre)
        by (apply matches_all_canon; rewrite H; reflexivity).
      apply Forall2_app_inv_l in M.
      destruct M as (pre4 & pre' & H4 & M & ->).
      apply Forall2_app_inv_l in M.
      destruct M as (pre1 & pre3 & H1 & H3 & ->).
      rewrite <- !app_assoc. apply test_of_https; assumption.
Qed.

(** A mixed-case prefix passes, a prefix after a blank does not. *)
Lemma url_test_accepts_exactly_the_prefixes_witness :
  UrlPattern.test (lit "hTtPs://x.io/a b") = true /\
  UrlPattern.test (lit " https://x.io") = false.
Proof.
  split; [|reflexivity].
  apply url_test_accepts_exactly_the_prefixes.
  exists (lit "hTtPs://"), (lit "x.io/a b"). split; [reflexivity|].
  right. reflexivity.
Defined.

(** ** The risk bar, exactly *)

Section RiskBarExact.

Lemma below_zero_is_below_100 (x : jsnum) :
  is_nan x = false -> SFltb (num_of_Z 0) x = false ->
  SFltb x (num_of_Z 100) = true.
Proof.
  destruct x as [[] | [] | | [] m e]; try discriminate; reflexivity.
Qed.

End RiskBarExact.

(** X12.  For a risk score that is a number other than NaN the percent of
    the bar is the score itself when the score lies strictly between 0 and
    100, is 100 when the score is not below 100, and is 0 when the score is
    not above 0 (negative scores, both zeros, minus infinity); applying the
    clamp twice changes nothing. *)
Theorem clamp_percent_saturates (x : jsnum) :
  is_nan x = false ->
  (SFltb (num_of_Z 0) x = true -> SFltb x (num_of_Z 100) = true ->
     clamp_percent x = x)
  /\ (SFltb x (num_of_Z 100) = false -> clamp_percent x = num_of_Z 100)
  /\ (SFltb (num_of_Z 0) x = false -> clamp_percent x = num_of_Z 0)
  /\ clamp_percent (clamp_percent x) = clamp_percent x.
Proof.
  intros Hx.
  assert (A : SFltb (num_of_Z 0) x = true -> SFltb x (num_of_Z 100) = true ->
              clamp_percent x = x).
  { intros H0 H100. unfold clamp_percent.
    rewrite (Math_min_100 x Hx), H100, (Math_max_0 x Hx), H0. reflexivity. }
  assert (B : SFltb x (num_of_Z 100) = false -> clamp_percent x = num_of_Z 100).
  { intros H100. unfold clamp_percent.
    rewrite (Math_min_100 x Hx), H100. reflexivity. }
  assert (C : SFltb (num_of_Z 0) x = false -> clamp_percent x = num_of_Z 0).
  { intros H0. unfold clamp_percent.
    rewrite (Math_min_100 x Hx), (below_zero_is_below_100 x Hx H0).
    rewrite (Math_max_0 x Hx), H0. reflexivity. }
  repeat split; try assumption.
  destruct (SFltb (num_of_Z 0) x) eqn:H0.
  - destruct (SFltb x (num_of_Z 100)) eqn:H100.
    + rewrite (A eq_refl eq_refl). exact (A eq_refl eq_refl).
    + rewrite (B eq_refl). reflexivity.
  - rewrite (C eq_refl). reflexivity.
Qed.

(** Plus infinity is shown as 100, minus zero as plus zero, 37 as 37. *)
Lemma clamp_percent_saturates_witness :
  is_nan (S754_infinity false) = false /\
  clamp_percent (S754_infinity false) = num_of_Z 100 /\
  clamp_percent neg_zero = pos_zero /\
  clamp_percent (num_of_Z 37) = num_of_Z 37.
Proof.
  assert (H : is_nan (S754_infinity false) = false) by reflexivity.
  split; [exact H|].
  split; [exact (proj1 (proj2 (clamp_percent_saturates _ H)) eq_refl)|].
  split; reflexivity.
Defined.

(** X13.  A result without [risk_score] is still rendered by the success
    panel, and the percent of its bar is NaN, outside 0..100: the clamp does
    not repair a missing score.  A [risk_score] of [null] counts as 0. *)
Theorem missing_risk_score_gives_nan (r : jsval) (rv : result_view) :
  render_panel r = ResultPanel rv ->
  (get_prop r (lit "risk_score") = VUndefined ->
     fill_width rv = Some S754_nan /\ marker_left rv = Some S754_nan
     /\ SFleb (num_of_Z 0) S754_nan = false)
  /\ (get_prop r (lit "risk_score") = VNull ->
     fill_width rv = Some pos_zero /\ marker_left rv = Some pos_zero).
Proof.
  intros Hp. apply render_panel_result_inv in Hp. subst rv.
  unfold render_result, bar_percent. simpl fill_width. simpl marker_left.
  split; intros ->; repeat split.
Qed.

(** A body with a verdict but no score. *)
Lemma missing_risk_score_gives_nan_witness :
  let r := VObj [(lit "verdict", VStr (lit "Likely genuine"))] in
  render_panel r = ResultPanel (render_result r) /\
  get_prop r (lit "risk_score") = VUndefined /\
  fill_width (render_result r) = Some S754_nan.
Proof.
  intros r.
  assert (Hp : render_panel r = ResultPanel (render_result r)) by reflexivity.
  assert (Hs : get_prop r (lit "risk_score") = VUndefined) by reflexivity.
  split; [exact Hp|]. split; [exact Hs|].
  exact (proj1 (proj1 (@missing_risk_score_gives_nan r _ Hp) Hs)).
Defined.

(** * The sign-up and login forms *)

Section FormObjects.

Lemma lookup_spread_set_same (form : props) (name : jstr) (v : jsval) :
  lookup name (spread_set form name v) = v.
Proof.
  induction form as [|[k w] form IH]; simpl.
  - rewrite (proj2 (jstr_eqb_eq name name) eq_refl). reflexivity.
  - destruct (JsString.eqb name k) eqn:E; simpl; rewrite E;
      [reflexivity | exact IH].
Qed.

Lemma lookup_spread_set_other (form : props) (name other : jstr) (v : jsval) :
  other <> name ->
  lookup other (spread_set form name v) = lookup other form.
Proof.
  intros Hne.
  assert (N : JsString.eqb other name = false).
  { destruct (JsString.eqb other name) eqn:E; [|reflexivity].
    apply jstr_eqb_eq in E. contradiction. }
  induction form as [|[k w] form IH]; simpl.
  - rewrite N. reflexivity.
  - destruct (JsString.eqb name k) eqn:E; simpl.
    + apply jstr_eqb_eq in E. subst k. rewrite N. reflexivity.
    + rewrite IH. reflexivity.
Qed.

Lemma keys_spread_set_present (form : props) (name : jstr) (v : jsval) :
  In name (keys form) -> keys (spread_set form name v) = keys form.
Proof.
  unfold keys. induction form as [|[k w] form IH]; simpl; [contradiction|].
  destruct (JsString.eqb name k) eqn:E; simpl; [reflexivity|].
  intros [H | H].
  - subst k. rewrite (proj2 (jstr_eqb_eq name name) eq_refl) in E.
    discriminate.
  - rewrite (IH H). reflexivity.
Qed.

Lemma keys_spread_set_absent (form : props) (name : jstr) (v : jsval) :
  ~ In name (keys form) -> keys (spread_set form name v) = keys form ++ [name].
Proof.
  unfold keys. induction form as [|[k w] form IH]; simpl; [reflexivity|].
  intros H. destruct (JsString.eqb name k) eqn:E; simpl.
  - apply jstr_eqb_eq in E. subst k. exfalso. apply H. left. reflexivity.
  - rewrite IH; [reflexivity|]. tauto.
Qed.

Lemma values_spread_set (P : jsval -> Prop) (form : props) (name : jstr)
      (v : jsval) :
  P v -> Forall (fun kv => P (snd kv)) form ->
  Forall (fun kv => P (snd kv)) (spread_set form name v).
Proof.
  intros Hv. induction 1 as [|[k w] form Hw Hf IH]; simpl.
  - constructor; [exact Hv | constructor].
  - destruct (JsString.eqb name k); constructor; assumption.
Qed.

End FormObjects.

(** X14.  [handleChange] of the login and of the sign-up screen writes one
    field and nothing else: afterwards the named field reads the new
    value, every other field reads what it read before, and for a name the
    form already has the fields and their order are unchanged.  A name the
    form does not have, and that is not an array index, is added at the
    end. *)
Theorem handleChange_writes_one_field (form : props) (name value : jstr) :
  login_screen.handleChange name value form
    = sign_up_page.handleChange name value form
  /\ lookup name (login_screen.handleChange name value form) = VStr value
  /\ (forall other, other <> name ->
        lookup other (login_screen.handleChange name value form)
          = lookup other form)
  /\ (In name (keys form) ->
        keys (login_screen.handleChange name value form) = keys form)
  /\ (~ In name (keys form) -> is_array_index name = false ->
        keys (login_screen.handleChange name value form)
          = keys form ++ [name]).
Proof.
  unfold login_screen.handleChange, sign_up_page.handleChange.
  split; [reflexivity|]. split; [apply lookup_spread_set_same|].
  split; [intros other H; apply lookup_spread_set_other; exact H|].
  split; [apply keys_spread_set_present|].
  intros H _. apply keys_spread_set_absent. exact H.
Qed.

(** Typing a password leaves the email and the order of the fields; a field
    called [phone] would be added after them. *)
Lemma handleChange_writes_one_field_witness :
  let form := login_screen.handleChange (lit "email") (lit "a@b.io")
                login_screen.initial_form in
  In (lit "password") (keys form) /\
  keys (login_screen.handleChange (lit "password") (lit "hunter2") form)
    = [lit "email"; lit "password"] /\
  lookup (lit "email")
         (login_screen.handleChange (lit "password") (lit "hunter2") form)
    = VStr (lit "a@b.io") /\
  ~ In (lit "phone") (keys form) /\
  is_array_index (lit "phone") = false /\
  is_array_index (lit "0") = true /\
  keys (login_screen.handleChange (lit "phone") (lit "555") form)
    = [lit "email"; lit "password"; lit "phone"].
Proof.
  intros form.
  assert (H : In (lit "password") (keys form)) by (right; left; reflexivity).
  assert (N : ~ In (lit "phone") (keys form)).
  { intros [E | [E | []]]; discriminate E. }
  assert (A : is_array_index (lit "phone") = false) by reflexivity.
  destruct (handleChange_writes_one_field form (lit "password") (lit "hunter2"))
    as (_ & _ & H3 & H4 & _).
  destruct (handleChange_writes_one_field form (lit "phone") (lit "555"))
    as (_ & _ & _ & _ & H5).
  split; [exact H|]. split; [rewrite (H4 H); reflexivity|].
  split; [rewrite H3 by discriminate; reflexivity|].
  split; [exact N|]. split; [exact A|]. split; [reflexivity|].
  rewrite (H5 N A). reflexivity.
Defined.

(** * The application as composed *)

Section Composed.

Lemma main_child_step (a : app) (u : user_event) :
  main (child_step a u) = main a.
Proof.
  unfold child_step.
  destruct u; destruct (MainScreen (ui (main a))); try reflexivity.
  - destruct (existsb _ _); reflexivity.
  - destruct (_ && _); reflexivity.
Qed.

Lemma main_app_step (a : app) (u : user_event) :
  main (app_step a u)
  = match to_main u with
    | Some e => step (main a) e
    | None => main a
    end.
Proof.
  unfold app_step, remount, parent_step. simpl.
  destruct (to_main u); simpl; rewrite main_child_step; reflexivity.
Qed.

Lemma to_main_not_auth (u : user_event) (e : event) :
  to_main u = Some e -> is_auth_event e = false.
Proof.
  destruct u; simpl; intros H; try discriminate H;
    try (injection H as <-; reflexivity).
  destruct (nth_error _ i) as [opt|]; [|discriminate H].
  match type of H with
  | (if ?b then _ else _) = _ => destruct b; [|discriminate H]
  end.
  injection H as <-; reflexivity.
Qed.

Lemma app_run_snoc (a : app) (us : list user_event) (u : user_event) :
  app_run a (us ++ [u]) = app_step (app_run a us) u.
Proof. unfold app_run. rewrite fold_left_app. reflexivity. Qed.

Lemma app_run_invariant (P : app -> Prop) :
  P app_boot -> (forall a u, P a -> P (app_step a u)) ->
  forall us, P (app_run app_boot us).
Proof.
  intros H0 Hstep us. induction us as [|u us IH] using rev_ind; [exact H0|].
  rewrite app_run_snoc. apply Hstep. exact IH.
Qed.

Lemma reachable_step (c : config) (e : event) :
  reachable c -> reachable (step c e).
Proof. intros [evs ->]. exists (evs ++ [e]). rewrite run_snoc. reflexivity. Qed.

Lemma app_main_reachable (us : list user_event) :
  reachable (main (app_run app_boot us)).
Proof.
  apply (@app_run_invariant (fun a => reachable (main a))).
  - exists []. reflexivity.
  - intros a u R. rewrite main_app_step.
    destruct (to_main u); [apply reachable_step|]; exact R.
Qed.

Lemma app_main_logged_out (us : list user_event) :
  logged_out_idle (main (app_run app_boot us)).
Proof.
  apply (@app_run_invariant (fun a => logged_out_idle (main a))).
  - repeat split.
  - intros a u L. rewrite main_app_step.
    destruct (to_main u) as [e|] eqn:E; [|exact L].
    apply logged_out_idle_step; [exact (to_main_not_auth u E) | exact L].
Qed.

End Composed.

(** X15.  In the application as composed, whatever the user does, nobody is
    ever logged in: the login and sign-up screens never call the
    auth-success callback they are handed.  So the user name stays empty,
    the profile screen is never shown, the landing screen always renders
    the form disabled with the login notice, and no analysis request is
    ever sent or in flight. *)
Theorem composed_app_never_logs_in (us : list user_event) :
  userName (ui (main (app_run app_boot us))) = lit ""
  /\ sent (main (app_run app_boot us)) = []
  /\ in_flight (main (app_run app_boot us)) = []
  /\ (forall n, MainScreen (ui (main (app_run app_boot us))) <> ProfilePage n)
  /\ (forall m, MainScreen (ui (main (app_run app_boot us))) = Main m ->
        textarea_disabled m = true /\ submit_disabled m = true
        /\ login_notice m = Some login_notice_text).
Proof.
  destruct (app_main_logged_out us) as (U & F & S).
  destruct (@navigation_invariant_reachable _ (app_main_reachable us))
    as (C & _).
  set (s := ui (main (app_run app_boot us))) in *.
  repeat split; try assumption.
  - intros n V. unfold MainScreen, screens_consistent in *.
    destruct (showSignUp s), (showLogin s), (showProfile s);
      try discriminate; try contradiction.
    rewrite U in C. discriminate.
  - apply MainScreen_main_inv in H. subst m. simpl. rewrite U. reflexivity.
  - apply MainScreen_main_inv in H. subst m. simpl. rewrite U.
    apply orb_true_r.
  - apply MainScreen_main_inv in H. subst m. simpl. rewrite U. reflexivity.
Qed.

(** X16.  The links between the two auth screens do not lead across: the
    "Sign up here" link of the login screen and the "Log in here" link of
    the sign-up screen, like the back arrows, close the screen and show the
    landing screen, because the callback they call ignores its argument. *)
Theorem auth_links_return_to_landing (us : list user_event) :
  (MainScreen (ui (main (app_run app_boot us))) = LoginScreen ->
     exists m,
       MainScreen (ui (main (app_step (app_run app_boot us) LoginSignUpLink)))
         = Main m
       /\ main (app_step (app_run app_boot us) LoginSignUpLink)
          = main (app_step (app_run app_boot us) LoginArrow))
  /\ (MainScreen (ui (main (app_run app_boot us))) = SignUpPage ->
     exists m,
       MainScreen (ui (main (app_step (app_run app_boot us) SignUpLoginLink)))
         = Main m
       /\ main (app_step (app_run app_boot us) SignUpLoginLink)
          = main (app_step (app_run app_boot us) SignUpArrow)).
Proof.
  destruct (@navigation_invariant_reachable _ (app_main_reachable us))
    as (C & _).
  rewrite !main_app_step. simpl to_main.
  set (c := main (app_run app_boot us)) in *. clearbody c.
  destruct c as [[su lg un pr inp ty res ld] fl se].
  unfold step, MainScreen, screens_consistent in *. simpl in *.
  split; intros V; destruct su, lg, pr; try discriminate V;
    try contradiction; simpl; eexists; split; reflexivity.
Qed.

(** From the login screen the sign-up link lands on the landing screen. *)
Lemma auth_links_return_to_landing_witness :
  let us := [LandingLogIn; LoginChange (lit "email") (lit "a@b.io")] in
  MainScreen (ui (main (app_run app_boot us))) = LoginScreen /\
  exists m,
    MainScreen (ui (main (app_step (app_run app_boot us) LoginSignUpLink)))
      = Main m.
Proof.
  intros us.
  assert (V : MainScreen (ui (main (app_run app_boot us))) = LoginScreen)
    by reflexivity.
  split; [exact V|].
  destruct (proj1 (auth_links_return_to_landing us) V) as (m & H & _).
  exists m. exact H.
Defined.

Section FormsInApp.

Lemma existsb_eqb_In (x : jstr) (l : list jstr) :
  existsb (JsString.eqb x) l = true -> In x l.
Proof.
  intros H. apply existsb_exists in H. destruct H as (y & Hy & E).
  apply jstr_eqb_eq in E. subst y. exact Hy.
Qed.

Lemma string_fields_handleChange (names : list jstr) (form : props)
      (name value : jstr) :
  In name names -> string_fields names form ->
  string_fields names (spread_set form name (VStr value)).
Proof.
  intros Hin [K V]. split.
  - rewrite keys_spread_set_present; [exact K | rewrite K; exact Hin].
  - apply (@values_spread_set (fun v => exists s, v = VStr s)); eauto.
Qed.

Lemma forms_intact_boot : forms_intact app_boot.
Proof.
  unfold forms_intact, string_fields, app_boot. simpl.
  repeat split; try (left; reflexivity);
    repeat (constructor; [eexists; reflexivity|]); constructor.
Qed.

Lemma forms_intact_ext (a b : app) :
  login_form b = login_form a -> signup_form b = signup_form a ->
  forms_intact a -> forms_intact b.
Proof. unfold forms_intact. intros -> ->. tauto. Qed.

Lemma forms_intact_child_step (a : app) (u : user_event) :
  forms_intact a -> forms_intact (child_step a u).
Proof.
  intros I. unfold child_step.
  destruct u; destruct (MainScreen (ui (main a))); try exact I;
    try (eapply forms_intact_ext; [| | exact I]; reflexivity).
  - destruct (existsb (JsString.eqb name) login_screen.input_names) eqn:E;
      [|exact I].
    apply existsb_eqb_In in E. destruct I as (L & S & P & Q).
    split; [|split; [exact S | split; [exact P | exact Q]]]. simpl.
    apply string_fields_handleChange; assumption.
  - destruct (existsb (JsString.eqb name) sign_up_page.input_names) eqn:E;
      [|exact I].
    destruct (sign_up_page.deliverable name value) eqn:D; [|exact I].
    apply existsb_eqb_In in E. destruct I as (L & S & P & Q).
    unfold forms_intact, sign_up_page.handleChange.
    cbn [andb login_form signup_form].
    split; [exact L|]. split; [apply string_fields_handleChange; assumption|].
    unfold sign_up_page.deliverable in D.
    destruct (JsString.eqb name (lit "profession")) eqn:E1.
    + apply jstr_eqb_eq in E1. subst name.
      rewrite lookup_spread_set_same.
      rewrite lookup_spread_set_other by discriminate.
      split; [|exact Q]. right. exists value. split; [reflexivity|].
      apply existsb_eqb_In. exact D.
    + assert (N1 : lit "profession" <> name).
      { intros <-. rewrite (proj2 (jstr_eqb_eq _ _) eq_refl) in E1.
        discriminate. }
      rewrite (lookup_spread_set_other _ _ N1).
      split; [exact P|].
      destruct (JsString.eqb name (lit "interest")) eqn:E2.
      * apply jstr_eqb_eq in E2. subst name.
        rewrite lookup_spread_set_same.
        right. exists value. split; [reflexivity|].
        apply existsb_eqb_In. exact D.
      * assert (N2 : lit "interest" <> name).
        { intros <-. rewrite (proj2 (jstr_eqb_eq _ _) eq_refl) in E2.
          discriminate. }
        rewrite (lookup_spread_set_other _ _ N2). exact Q.
Qed.

Lemma forms_intact_step (a : app) (u : user_event) :
  forms_intact a -> forms_intact (app_step a u).
Proof.
  intros I. apply (forms_intact_child_step u) in I.
  unfold app_step.
  assert (J : forms_intact (parent_step (child_step a u) u)).
  { unfold parent_step. destruct (to_main u); [|exact I].
    eapply forms_intact_ext; [| | exact I]; reflexivity. }
  destruct J as (L & S & P & Q). destruct forms_intact_boot as (L0 & S0 & P0 & Q0).
  unfold remount, forms_intact. simpl.
  destruct (MainScreen _); repeat split;
    first [apply L | apply L0 | apply S | apply S0 | exact P | exact P0
          | exact Q | exact Q0].
Qed.

End FormsInApp.

(** X17.  Whatever the user does, the form of the login screen holds exactly
    the fields [email] and [password] and the form of the sign-up screen
    exactly [name], [email], [password], [profession], [interest], in that
    order and all strings; the stored profession and interest are either
    still empty or one of the listed options. *)
Theorem forms_keep_their_fields (us : list user_event) :
  keys (login_form (app_run app_boot us)) = [lit "email"; lit "password"]
  /\ keys (signup_form (app_run app_boot us))
     = [lit "name"; lit "email"; lit "password"; lit "profession";
        lit "interest"]
  /\ Forall (fun kv => exists s, snd kv = VStr s)
            (login_form (app_run app_boot us) ++ signup_form (app_run app_boot us))
  /\ unset_or_among sign_up_page.professions
       (lookup (lit "profession") (signup_form (app_run app_boot us)))
  /\ unset_or_among sign_up_page.interests
       (lookup (lit "interest") (signup_form (app_run app_boot us))).
Proof.
  assert (I : forms_intact (app_run app_boot us)).
  { apply (@app_run_invariant forms_intact);
      [exact forms_intact_boot | intros a u; apply forms_intact_step]. }
  destruct I as ((K1 & V1) & (K2 & V2) & P & Q).
  split; [exact K1|]. split; [exact K2|].
  split; [apply Forall_app; split; assumption|]. split; assumption.
Qed.

(** * The profile screen *)

Section Profile.
Import profile_page.

Lemma click_keeps_content (s : pstate) (i : nat) :
  content_selected (click s i) = content_selected s.
Proof. unfold click. destruct (nth_error options i); reflexivity. Qed.

Lemma click_selects_an_option (s : pstate) (i : nat) :
  In (sidebar_selected s) (map key options) ->
  In (sidebar_selected (click s i)) (map key options).
Proof.
  intros H. unfold click. destruct (nth_error options i) as [opt|] eqn:E;
    [|exact H].
  change (In (key opt) (map key options)).
  apply in_map. exact (nth_error_In _ _ E).
Qed.

Lemma clicks_snoc (s : pstate) (ks : list nat) (i : nat) :
  clicks s (ks ++ [i]) = click (clicks s ks) i.
Proof. unfold clicks. rewrite fold_left_app. reflexivity. Qed.

End Profile.

(** X18.  On the profile screen, after any sequence of clicks on the
    sidebar: the sidebar's selection is the key of one of the four options,
    exactly one button is drawn as selected, and it is the one clicked last;
    the content pane still shows the history block, because [MainContent]
    reads a [selected] of its own that nothing writes. *)
Theorem sidebar_clicks_never_reach_the_content (ks : list nat) :
  In (profile_page.sidebar_selected (profile_page.clicks profile_page.mounted ks))
     (map profile_page.key profile_page.options)
  /\ List.length
       (filter (profile_page.highlighted
                  (profile_page.clicks profile_page.mounted ks))
               profile_page.options) = 1%nat
  /\ profile_page.MainContent
       (profile_page.content_selected
          (profile_page.clicks profile_page.mounted ks))
     = profile_page.HistoryBlock
  /\ (forall i opt,
        nth_error profile_page.options i = Some opt ->
        profile_page.sidebar_selected
          (profile_page.clicks profile_page.mounted (ks ++ [i]))
        = profile_page.key opt).
Proof.
  assert (I : In (profile_page.sidebar_selected
                    (profile_page.clicks profile_page.mounted ks))
                 (map profile_page.key profile_page.options)
              /\ profile_page.content_selected
                   (profile_page.clicks profile_page.mounted ks)
                 = lit "history").
  { induction ks as [|i ks IH] using rev_ind.
    - split; [left; reflexivity | reflexivity].
    - rewrite clicks_snoc, click_keeps_content.
      split; [apply click_selects_an_option|]; tauto. }
  destruct I as [I C]. split; [exact I|]. split; [|split].
  - unfold profile_page.highlighted.
    simpl in I. destruct I as [<- | [<- | [<- | [<- | []]]]]; reflexivity.
  - rewrite C. reflexivity.
  - intros i opt E. rewrite clicks_snoc. unfold profile_page.click.
    rewrite E. reflexivity.
Qed.



(** * The stand-alone analysis page *)

Section KeywordSearch.
Import analysis_page.

Lemma startsWith_iff (pat s : jstr) :
  startsWith pat s = true <-> exists post, s = pat ++ post.
Proof.
  revert s. induction pat as [|p pat IH]; intros s; simpl.
  - split; [intros _; exists s; reflexivity | reflexivity].
  - destruct s as [|c s]; [split; [discriminate | intros [post H]; discriminate]|].
    rewrite andb_true_iff, N.eqb_eq, IH. split.
    + intros [-> [post ->]]. exists post. reflexivity.
    + intros [post H]. injection H as -> ->. split; [reflexivity|].
      exists post. reflexivity.
Qed.

Lemma includes_iff (s pat : jstr) :
  includes s pat = true <-> exists pre post, s = pre ++ pat ++ post.
Proof.
  induction s as [|c s IH].
  - simpl. rewrite orb_false_r, startsWith_iff. split.
    + intros [post H]. exists [], post. exact H.
    + intros (pre & post & H). destruct pre; [exists post; exact H|discriminate].
  - simpl. rewrite orb_true_iff, startsWith_iff, IH. split.
    + intros [[post H] | (pre & post & H)].
      * exists [], post. exact H.
      * exists (c :: pre), post. simpl. rewrite H. reflexivity.
    + intros (pre & post & H). destruct pre as [|d pre].
      * left. exists post. exact H.
      * right. simpl in H. injection H as _ H. exists pre, post. exact H.
Qed.

Lemma includes_lowered_iff (input pat : jstr) :
  includes (toLowerCase input) pat = true <->
  exists pre w post, input = pre ++ w ++ post /\ toLowerCase w = pat.
Proof.
  rewrite includes_iff. unfold toLowerCase. split.
  - intros (pre & post & H).
    apply map_eq_app in H. destruct H as (pre' & rest & -> & <- & H).
    apply map_eq_app in H. destruct H as (w & post' & -> & <- & <-).
    exists pre', w, post'. split; reflexivity.
  - intros (pre & w & post & -> & <-).
    exists (map lower pre), (map lower post). rewrite !map_app. reflexivity.
Qed.

Lemma lower_keeps_white_space (c : code_unit) :
  is_white_space (lower c) = is_white_space c.
Proof.
  unfold lower, is_ascii_upper.
  destruct (65 <=? c) eqn:H1; simpl; [|reflexivity].
  destruct (c <=? 90) eqn:H2; [|reflexivity].
  apply N.leb_le in H1. apply N.leb_le in H2.
  unfold is_white_space.
  repeat match goal with
         | |- context [?a =? ?b] =>
             let E := fresh in
             destruct (a =? b) eqn:E; [apply N.eqb_eq in E; lia|]
         | |- context [?a <=? ?b] =>
             let E := fresh in
             destruct (a <=? b) eqn:E;
             [apply N.leb_le in E; try lia | apply N.leb_gt in E; try lia]
         end; reflexivity.
Qed.

Lemma all_white_space_lowered (s : jstr) :
  all_white_space (toLowerCase s) = all_white_space s.
Proof.
  unfold all_white_space, toLowerCase. induction s as [|c s IH];
    [reflexivity|].
  simpl. rewrite lower_keeps_white_space, IH. reflexivity.
Qed.

Lemma keyword_is_not_blank (input pat : jstr) :
  all_white_space pat = false ->
  includes (toLowerCase input) pat = true ->
  JsString.truthy (trim input) = true.
Proof.
  intros Hp H. apply includes_iff in H. destruct H as (pre & post & H).
  destruct (JsString.truthy (trim input)) eqn:T; [reflexivity|].
  apply truthy_trim_false_iff in T.
  rewrite <- all_white_space_lowered, H in T.
  unfold all_white_space in *. rewrite !forallb_app, Hp in T.
  rewrite andb_false_r in T. discriminate.
Qed.

End KeywordSearch.

(** X20.  The keyword check of the analysis page reports fraud exactly for
    the texts that hold [scam] or [fraud] somewhere, in any mix of upper and
    lower case; such a text is never taken for an empty one. *)
Theorem fraud_is_reported_exactly_for_keywords (input : jstr) :
  analysis_page.handleAnalyze input = analysis_page.fraud_message
  <-> analysis_page.mentions_keyword input.
Proof.
  unfold analysis_page.handleAnalyze, analysis_page.mentions_keyword.
  split.
  - destruct (negb (JsString.truthy (trim input))); [discriminate|].
    destruct (analysis_page.includes (analysis_page.toLowerCase input)
                (lit "scam")) eqn:E1; simpl.
    + intros _. apply includes_lowered_iff in E1.
      destruct E1 as (pre & w & post & H1 & H2). exists pre, w, post. auto.
    + destruct (analysis_page.includes (analysis_page.toLowerCase input)
                  (lit "fraud")) eqn:E2; [|discriminate].
      intros _. apply includes_lowered_iff in E2.
      destruct E2 as (pre & w & post & H1 & H2). exists pre, w, post. auto.
  - intros (pre & w & post & H & [K | K]).
    + assert (E : analysis_page.includes (analysis_page.toLowerCase input)
                    (lit "scam") = true)
        by (apply includes_lowered_iff; exists pre, w, post; auto).
      rewrite (@keyword_is_not_blank input (lit "scam") eq_refl E), E.
      reflexivity.
    + assert (E : analysis_page.includes (analysis_page.toLowerCase input)
                    (lit "fraud") = true)
        by (apply includes_lowered_iff; exists pre, w, post; auto).
      rewrite (@keyword_is_not_blank input (lit "fraud") eq_refl E), E.
      rewrite orb_true_r. reflexivity.
Qed.

(** A keyword in capitals inside a longer word is found. *)
Lemma fraud_is_reported_exactly_for_keywords_witness :
  analysis_page.mentions_keyword (lit "No SCAMmers here") /\
  analysis_page.handleAnalyze (lit "No SCAMmers here")
    = analysis_page.fraud_message.
Proof.
  assert (H : analysis_page.mentions_keyword (lit "No SCAMmers here")).
  { exists (lit "No "), (lit "SCAM"), (lit "mers here").
    split; [reflexivity | left; reflexivity]. }
  split; [exact H|].
  exact (proj2 (fraud_is_reported_exactly_for_keywords _) H).
Defined.

(** X21.  The analysis page's check always yields one of its three
    messages: the request to enter something exactly when the text is empty
    or white space only, and otherwise the fraud or the no-issues message;
    two texts that differ only in the case of ASCII letters get the same
    message. *)
Theorem keyword_check_outcomes (input other : jstr) :
  (analysis_page.handleAnalyze input = validation_message
   <-> all_white_space input = true)
  /\ (analysis_page.handleAnalyze input = validation_message
      \/ analysis_page.handleAnalyze input = analysis_page.fraud_message
      \/ analysis_page.handleAnalyze input = analysis_page.clean_message)
  /\ (analysis_page.toLowerCase input = analysis_page.toLowerCase other ->
      analysis_page.handleAnalyze input = analysis_page.handleAnalyze other).
Proof.
  split; [|split].
  - rewrite <- truthy_trim_false_iff. unfold analysis_page.handleAnalyze.
    destruct (JsString.truthy (trim input)); simpl.
    + destruct (_ || _); split; discriminate.
    + split; reflexivity.
  - unfold analysis_page.handleAnalyze.
    destruct (negb _); [auto|]. destruct (_ || _); auto.
  - intros E. unfold analysis_page.handleAnalyze. rewrite E.
    assert (B : JsString.truthy (trim input) = JsString.truthy (trim other)).
    { destruct (JsString.truthy (trim input)) eqn:T1,
               (JsString.truthy (trim other)) eqn:T2; try reflexivity.
      - apply truthy_trim_false_iff in T2.
        rewrite <- all_white_space_lowered, <- E, all_white_space_lowered in T2.
        apply truthy_trim_false_iff in T2. congruence.
      - apply truthy_trim_false_iff in T1.
        rewrite <- all_white_space_lowered, E, all_white_space_lowered in T1.
        apply truthy_trim_false_iff in T1. congruence. }
    rewrite B. reflexivity.
Qed.

(** Blanks ask for input; a harmless text in either case is clean. *)
Lemma keyword_check_outcomes_witness :
  all_white_space (lit "  ") = true /\
  analysis_page.handleAnalyze (lit "  ") = validation_message /\
  analysis_page.toLowerCase (lit "Hiring Now")
    = analysis_page.toLowerCase (lit "hiring now") /\
  analysis_page.handleAnalyze (lit "Hiring Now")
    = analysis_page.handleAnalyze (lit "hiring now").
Proof.
  assert (W : all_white_space (lit "  ") = true) by reflexivity.
  assert (E : analysis_page.toLowerCase (lit "Hiring Now")
              = analysis_page.toLowerCase (lit "hiring now")) by reflexivity.
  split; [exact W|].
  split; [exact (proj2 (proj1 (keyword_check_outcomes (lit "  ") (lit "")) ) W)|].
  split; [exact E|].
  exact (proj2 (proj2 (keyword_check_outcomes _ _)) E).
Defined.

(** Witnesses for the properties of the composed application. *)

(** A visitor fills the login form, submits it and tries the analysis form:
    still nobody is logged in and nothing was sent. *)
Lemma composed_app_never_logs_in_witness :
  let us := [LandingLogIn; LoginChange (lit "email") (lit "a@b.io");
             LoginChange (lit "password") (lit "hunter2"); LoginSubmit;
             LoginArrow; LandingType (lit "http://jobs.example/1");
             LandingSubmit] in
  MainScreen (ui (main (app_run app_boot us)))
    = Main (render_main (ui (main (app_run app_boot us)))) /\
  List.length (alerts (app_run app_boot us)) = 1%nat /\
  userName (ui (main (app_run app_boot us))) = lit "" /\
  sent (main (app_run app_boot us)) = [] /\
  submit_disabled (render_main (ui (main (app_run app_boot us)))) = true.
Proof.
  intros us.
  assert (V : MainScreen (ui (main (app_run app_boot us)))
              = Main (render_main (ui (main (app_run app_boot us)))))
    by reflexivity.
  destruct (composed_app_never_logs_in us) as (U & S & _ & _ & H).
  split; [exact V|]. split; [reflexivity|]. split; [exact U|].
  split; [exact S|]. exact (proj1 (proj2 (H _ V))).
Defined.

(** Typed values are stored under their fields, and a value that is not an
    option of the select is not. *)
Lemma forms_keep_their_fields_witness :
  let us := [LandingSignUp; SignUpChange (lit "name") (lit "Meera");
             SignUpChange (lit "profession") (lit "Student");
             SignUpChange (lit "interest") (lit "Astrology")] in
  keys (signup_form (app_run app_boot us))
    = [lit "name"; lit "email"; lit "password"; lit "profession";
       lit "interest"] /\
  lookup (lit "profession") (signup_form (app_run app_boot us))
    = VStr (lit "Student") /\
  lookup (lit "interest") (signup_form (app_run app_boot us)) = VStr (lit "").
Proof.
  intros us.
  split; [exact (proj1 (proj2 (forms_keep_their_fields us)))|].
  split; reflexivity.
Defined.

(** Downloads, then Edit Profile: Edit is selected, the pane shows history. *)
Lemma sidebar_clicks_never_reach_the_content_witness :
  nth_error profile_page.options 2
    = Some (profile_page.mkOption (lit "edit") (lit "Edit Profile")
              (lit "src/assets/edit_profile.png")) /\
  profile_page.sidebar_selected
    (profile_page.clicks profile_page.mounted ([1%nat] ++ [2%nat]))
    = lit "edit" /\
  profile_page.MainContent
    (profile_page.content_selected
       (profile_page.clicks profile_page.mounted [1%nat; 2%nat]))
    = profile_page.HistoryBlock.
Proof.
  assert (E : nth_error profile_page.options 2
              = Some (profile_page.mkOption (lit "edit") (lit "Edit Profile")
                        (lit "src/assets/edit_profile.png"))) by reflexivity.
  split; [exact E|].
  split.
  - exact (proj2 (proj2 (proj2 (sidebar_clicks_never_reach_the_content [1%nat])))
                 2%nat _ E).
  - exact (proj1 (proj2 (proj2
             (sidebar_clicks_never_reach_the_content [1%nat; 2%nat])))).
Defined.
